(** * weather.py: a shallow embedding and its specification

    The program reads city names from a file, resolves each one through a
    geocoding endpoint, fetches the current weather, folds the readings into
    a result mapping with a ["stats"] entry, writes the mapping to a file and
    prints a summary.

    Modelling choices, all visible in the definitions below:
    - Python values that come out of [response.json()] are [json] values;
      [None] is [JNull].  A number is an int of any size or a binary64 float
      (Rocq's primitive floats, with their infinities and NaN); arithmetic
      rounds, converts and overflows as Python's does.
    - Text is a Rocq [string] holding the UTF-8 bytes of a Python [str];
      whitespace is the set of characters [str.strip] removes.
    - The command line is taken as parsed: [argparse] is not modelled.
    - Effects are explicit: a computation takes the number of HTTP requests
      issued so far and returns a result or a raised exception, the new
      request count and the events it produced, in order.  The outside world
      (what each request answers, what each file holds, which paths can be
      written) is a [world] record. *)

From Stdlib Require Import Floats.
From Stdlib Require Import ZArith QArith Qabs List String Ascii Bool Lia.
From Stdlib Require Import DecimalString Lqa.
Import ListNotations.

Set Warnings "-register-all".
Set Warnings "-inexact-float".

Local Open Scope string_scope.
Local Open Scope list_scope.
Local Open Scope Z_scope.

(** ** Values *)

(** A number as [json()] gives it: an int, or a float. *)
Inductive number : Type :=
| Int (z : Z)
| Float (f : float).

Coercion Int : Z >-> number.
Coercion Float : float >-> number.

Inductive json : Type :=
| JNull
| JBool (b : bool)
| JNum (n : number)
| JStr (s : string)
| JArr (items : list json)
| JObj (fields : list (string * json)).

(** Python exceptions the program can meet. *)
Inductive exn : Type :=
| FileNotFoundError
| OSError
| AttributeError
| TypeError
| KeyError
| IndexError
| ValueError
| NameError
| OverflowError
| ZeroDivisionError.

Inductive res (A : Type) : Type :=
| Ok (a : A)
| Raise (e : exn).
Arguments Ok {A} a.
Arguments Raise {A} e.

(** [bool(v)]: the truth value Python gives a value in [if not v]. *)
Definition truthy (v : json) : bool :=
  match v with
  | JNull => false
  | JBool b => b
  | JNum (Int z) => negb (z =? 0)
  | JNum (Float f) => negb (PrimFloat.eqb f 0%float)
  | JStr s => negb (s =? "")%string
  | JArr items => match items with [] => false | _ => true end
  | JObj fields => match fields with [] => false | _ => true end
  end.

(** [v is None]. *)
Definition is_none (v : json) : bool :=
  match v with JNull => true | _ => false end.

(** Lookup in a parsed JSON object, [None] when the key is missing. *)
Fixpoint assoc_get (fields : list (string * json)) (key : string) : json :=
  match fields with
  | [] => JNull
  | (k, v) :: rest => if (k =? key)%string then v else assoc_get rest key
  end.

Fixpoint assoc_mem (fields : list (string * json)) (key : string) : bool :=
  match fields with
  | [] => false
  | (k, _) :: rest => if (k =? key)%string then true else assoc_mem rest key
  end.

(** [v.get(key)]: only a dict has the method. *)
Definition py_get (v : json) (key : string) : res json :=
  match v with
  | JObj fields => Ok (assoc_get fields key)
  | _ => Raise AttributeError
  end.

(** [v[key]] with a string key. *)
Definition py_getitem (v : json) (key : string) : res json :=
  match v with
  | JObj fields => if assoc_mem fields key then Ok (assoc_get fields key) else Raise KeyError
  | _ => Raise TypeError
  end.

(** [v[0]]. *)
Definition py_index0 (v : json) : res json :=
  match v with
  | JArr (x :: _) => Ok x
  | JArr [] => Raise IndexError
  | JStr (String c _) => Ok (JStr (String c ""))
  | JStr EmptyString => Raise IndexError
  | JObj _ => Raise KeyError
  | _ => Raise TypeError
  end.

(** ** The value of a number

    Python compares numbers of any two kinds by their exact values: an int
    is an integer, a finite float is the rational it stands for, a bool is 0
    or 1; the infinities lie below and above everything else, and NaN is
    neither equal to nor smaller than anything. *)

Inductive xval : Type :=
| Fin (q : Q)
| PInf
| NInf
| NaN.

Definition pow2 (e : Z) : Q :=
  if 0 <=? e then inject_Z (2 ^ e) else 1 # Z.to_pos (2 ^ (- e)).

(** The value of a float, read off its sign, mantissa and exponent. *)
Definition float_val (f : float) : xval :=
  match Prim2SF f with
  | S754_zero _ => Fin 0
  | S754_infinity s => if s then NInf else PInf
  | S754_nan => NaN
  | S754_finite s m e => Fin (inject_Z (if s then Zneg m else Zpos m) * pow2 e)
  end.

Definition number_val (n : number) : xval :=
  match n with
  | Int z => Fin (inject_Z z)
  | Float f => float_val f
  end.

(** The numeric value of an int, float or bool; nothing for other values. *)
Definition num_val (v : json) : option xval :=
  match v with
  | JNum n => Some (number_val n)
  | JBool b => Some (Fin (if b then 1 else 0))
  | _ => None
  end.

Definition Qltb (x y : Q) : bool := negb (Qle_bool y x).

(** [x == y] and [x < y] on values. *)
Definition xval_eqb (x y : xval) : bool :=
  match x, y with
  | Fin a, Fin b => Qeq_bool a b
  | PInf, PInf => true
  | NInf, NInf => true
  | _, _ => false
  end.

Definition xval_ltb (x y : xval) : bool :=
  match x, y with
  | NaN, _ | _, NaN => false
  | Fin a, Fin b => Qltb a b
  | NInf, NInf => false
  | NInf, _ => true
  | _, NInf => false
  | PInf, _ => false
  | _, PInf => true
  end.

(** ** Python dicts with arbitrary hashable keys

    [weather_results] is keyed by whatever the geocoder gave as the name.
    Insertion order is kept; assigning to a key that is already there keeps
    its place (and the key object) and replaces the value. *)

Definition hashable (k : json) : bool :=
  match k with
  | JArr _ | JObj _ => false
  | _ => true
  end.

(** Two keys meet when they are one object or are equal.  A NaN equals
    nothing, but every NaN the JSON decoder yields is one and the same
    object, so a NaN key meets itself. *)
Definition xval_same (x y : xval) : bool :=
  match x, y with
  | NaN, NaN => true
  | _, _ => xval_eqb x y
  end.

(** [a is b or a == b] on hashable values (with equal hashes): strings by
    content, ints, floats and bools by numeric value. *)
Definition key_eqb (a b : json) : bool :=
  match a, b with
  | JNull, JNull => true
  | JStr s, JStr t => (s =? t)%string
  | _, _ =>
      match num_val a, num_val b with
      | Some x, Some y => xval_same x y
      | _, _ => false
      end
  end.

Definition dict := list (json * json).

Fixpoint dict_get (d : dict) (key : json) : json :=
  match d with
  | [] => JNull
  | (k, v) :: rest => if key_eqb k key then v else dict_get rest key
  end.

Fixpoint dict_set (d : dict) (key value : json) : dict :=
  match d with
  | [] => [(key, value)]
  | (k, v) :: rest =>
      if key_eqb k key then (k, value) :: rest
      else (k, v) :: dict_set rest key value
  end.

(** [d[key] = value]. *)
Definition dict_setitem (d : dict) (key value : json) : res dict :=
  if hashable key then Ok (dict_set d key value) else Raise TypeError.

Definition keys (d : dict) : list json := map fst d.

(** ** The outside world and the events of a run *)

(** What the [try] block of one attempt does: it returns the parsed body, or
    [requests] raises a [RequestException]. *)
Inductive failure : Type :=
| ConnectionError
| Timeout
| HTTPError (status : Z).

Inductive outcome : Type :=
| Success (body : json)
| Failed (err : failure).

Inductive read_outcome : Type :=
| Lines (lines : list string)
| NotFound
| Unreadable.

Definition params := list (string * json).

Record world : Type := {
  (** the answer to the [k]-th request of the run, given its url and
      parameters *)
  net : nat -> string -> params -> outcome;
  files : string -> read_outcome;
  writable : string -> bool
}.

(** A piece of a formatted message: literal text, or a value put through
    [str()] or a format specification. *)
Inductive frag : Type :=
| Lit (s : string)
| Val (v : json)
| Val20 (v : json)
| ErrText (err : failure)
| ExnText (e : exn)
| IntText (z : Z).

Inductive stream : Type := Stdout | Stderr.

Inductive event : Type :=
| EGet (url : string) (p : params) (timeout : Z)
| ESleep (seconds : Q)
| EPrint (st : stream) (msg : list frag)
| EWrite (path : string) (data : dict).

(** ** The effect monad *)

Definition M (A : Type) : Type := nat -> res A * nat * list event.

Definition ret {A} (a : A) : M A := fun c => (Ok a, c, []).

Definition raise {A} (e : exn) : M A := fun c => (Raise e, c, []).

Definition bind {A B} (m : M A) (k : A -> M B) : M B :=
  fun c =>
    match m c with
    | (Ok a, c1, ev1) =>
        match k a c1 with
        | (r, c2, ev2) => (r, c2, ev1 ++ ev2)
        end
    | (Raise e, c1, ev1) => (Raise e, c1, ev1)
    end.

Notation "x <- m ;; k" := (bind m (fun x => k))
  (at level 61, m at next level, right associativity).
Notation "m ;;; k" := (bind m (fun _ => k))
  (at level 61, right associativity).

Definition lift {A} (r : res A) : M A := fun c => (r, c, []).

Definition emit (e : event) : M unit := fun c => (Ok tt, c, [e]).

Definition print (st : stream) (msg : list frag) : M unit := emit (EPrint st msg).

(** [time.sleep(seconds)]. *)
Definition sleep (seconds : Q) : M unit := emit (ESleep seconds).

(** [try: m except Exception: ...]: the outcome of [m] handed to the code
    that follows. *)
Definition attempt {A} (m : M A) : M (res A) :=
  fun c => match m c with (r, c1, ev1) => (Ok r, c1, ev1) end.

(** One [requests.get(...)] with [raise_for_status()] and [json()]. *)
Definition http_get (w : world) (url : string) (p : params) (timeout : Z) : M outcome :=
  fun c => (Ok (net w c url p), S c, [EGet url p timeout]).

Definition result_of {A} (x : res A * nat * list event) : res A := fst (fst x).
Definition count_of {A} (x : res A * nat * list event) : nat := snd (fst x).
Definition events_of {A} (x : res A * nat * list event) : list event := snd x.

(** ** Constants *)

Definition GEOCODE_API_URL := "https://geocoding-api.open-meteo.com/v1/search".
Definition WEATHER_API_URL := "https://api.open-meteo.com/v1/forecast".
Definition DEFAULT_JSON_OUTPUT := "weather_output.json".
Definition DEFAULT_CSV_OUTPUT := "weather_output.csv".
Definition REQUEST_TIMEOUT_SECONDS : Z := 10.
Definition RETRY_ATTEMPTS : Z := 3.
Definition RETRY_DELAY : Q := 3 # 2.

(** ** Text helpers *)

(** The line feed of ["\n"] in the source's literals. *)
Definition NL : string := String (ascii_of_nat 10) "".

(** The characters [str.strip()] removes, each as its UTF-8 bytes: U+0009 to
    U+000D, U+001C to U+001F, U+0020, U+0085, U+00A0, U+1680, U+2000 to
    U+200A, U+2028, U+2029, U+202F, U+205F and U+3000. *)
Definition whitespace : list (list ascii) :=
  map (map ascii_of_nat)
    [[9]; [10]; [11]; [12]; [13]; [28]; [29]; [30]; [31]; [32];
     [194; 133]; [194; 160]; [225; 154; 128];
     [226; 128; 128]; [226; 128; 129]; [226; 128; 130]; [226; 128; 131];
     [226; 128; 132]; [226; 128; 133]; [226; 128; 134]; [226; 128; 135];
     [226; 128; 136]; [226; 128; 137]; [226; 128; 138];
     [226; 128; 168]; [226; 128; 169]; [226; 128; 175]; [226; 129; 159];
     [227; 128; 128]]%nat.

(** What follows [p] in [l], when [l] starts with [p]. *)
Fixpoint strip_prefix (p l : list ascii) : option (list ascii) :=
  match p with
  | [] => Some l
  | a :: p' =>
      match l with
      | b :: l' => if Ascii.eqb a b then strip_prefix p' l' else None
      | [] => None
      end
  end.

(** What follows the first character of [l], when it is one of [chars]. *)
Fixpoint strip_any (chars : list (list ascii)) (l : list ascii) : option (list ascii) :=
  match chars with
  | [] => None
  | p :: ps =>
      match strip_prefix p l with
      | Some r => Some r
      | None => strip_any ps l
      end
  end.

(** Dropping characters of [chars] from the front, at most [fuel] of them. *)
Fixpoint strip_front (chars : list (list ascii)) (fuel : nat) (l : list ascii)
    : list ascii :=
  match fuel with
  | O => l
  | S k =>
      match strip_any chars l with
      | Some r => strip_front chars k r
      | None => l
      end
  end.

(** [s.lstrip()] and [s.rstrip()]; from the right the bytes are read backwards. *)
Definition lstrip (s : string) : string :=
  let l := list_ascii_of_string s in
  string_of_list_ascii (strip_front whitespace (List.length l) l).

Definition rstrip (s : string) : string :=
  let l := list_ascii_of_string s in
  string_of_list_ascii
    (rev (strip_front (map (@rev ascii) whitespace) (List.length l) (rev l))).

(** [s.strip()]. *)
Definition strip (s : string) : string := rstrip (lstrip s).

(** [output_file or default]. *)
Definition or_default (o : option string) (default : string) : string :=
  match o with
  | Some s => if (s =? "")%string then default else s
  | None => default
  end.

(** [range(a, b)]. *)
Definition py_range (a b : Z) : list Z :=
  map (fun i => a + Z.of_nat i) (seq 0 (Z.to_nat (b - a))).

(** ** read_city_names_from_file *)

Definition read_city_names_from_file (w : world) (file_path : string) : M (list string) :=
  match files w file_path with
  | Lines lines =>
      let cities :=
        map strip (filter (fun line => negb (strip line =? "")%string) lines) in
      (match cities with
       | [] =>
           print Stderr [Lit "[warning] The file '"; Lit file_path;
                         Lit "' was read, but no cities were found."]
       | _ => ret tt
       end) ;;;
      ret cities
  | NotFound =>
      print Stderr [Lit "[error] Could not find file: "; Lit file_path] ;;;
      raise FileNotFoundError
  | Unreadable =>
      print Stderr [Lit "[error] Unexpected error reading the file '"; Lit file_path;
                    Lit "': "; ExnText OSError] ;;;
      raise OSError
  end.

(** ** fetch_data_with_retries *)

(** The body of [for attempt in range(1, retries + 1)], over the attempt
    numbers still to come.  Leaving the loop without a [return] makes the
    function return [None]. *)
Fixpoint fetch_loop (w : world) (url : string) (p : params) (retries : Z)
    (attempts : list Z) : M json :=
  match attempts with
  | [] => ret JNull
  | attempt_no :: rest =>
      o <- http_get w url p REQUEST_TIMEOUT_SECONDS ;;
      match o with
      | Success body => ret body
      | Failed err =>
          if attempt_no <? retries then
            print Stderr [Lit "[info] Request failed (attempt "; IntText attempt_no;
                          Lit "): "; ErrText err; Lit ". Retrying..."] ;;;
            sleep RETRY_DELAY ;;;
            fetch_loop w url p retries rest
          else
            print Stderr [Lit "[error] Failed after "; IntText attempt_no;
                          Lit " retries: "; ErrText err] ;;;
            ret JNull
      end
  end.

Definition fetch_data_with_retries (w : world) (url : string) (p : params)
    (retries : Z) : M json :=
  fetch_loop w url p retries (py_range 1 (retries + 1)).

(** ** get_city_coordinates *)

Definition get_city_coordinates (w : world) (city_name : string)
    : M (option (json * json * json)) :=
  let p := [("name", JStr city_name); ("count", JNum 1)] in
  response_data <- fetch_data_with_retries w GEOCODE_API_URL p RETRY_ATTEMPTS ;;
  if negb (truthy response_data) then ret None else
  results <- lift (py_get response_data "results") ;;
  if negb (truthy results) then
    print Stderr [Lit "[warning] geocoding data not found for '"; Lit city_name; Lit "'."] ;;;
    ret None
  else
  city_info <- lift (py_index0 results) ;;
  lat <- lift (py_get city_info "latitude") ;;
  lon <- lift (py_get city_info "longitude") ;;
  name <- lift (py_get city_info "name") ;;
  let city_name_from_api := if truthy name then name else JStr city_name in
  if is_none lat || is_none lon then
    print Stderr [Lit "[warning] Error in geocoding data for city '"; Lit city_name; Lit "'"] ;;;
    ret None
  else
  ret (Some (lat, lon, city_name_from_api)).

(** ** get_current_weather_for_coordinates *)

Definition get_current_weather_for_coordinates (w : world) (lat lon : json) : M json :=
  let p := [("latitude", lat); ("longitude", lon); ("current_weather", JBool true)] in
  weather_data <- fetch_data_with_retries w WEATHER_API_URL p RETRY_ATTEMPTS ;;
  if negb (truthy weather_data) then ret JNull else
  current_weather <- lift (py_get weather_data "current_weather") ;;
  if negb (truthy current_weather) then
    print Stderr [Lit "[warning] No current weather data found for coordinates ";
                  Val lat; Lit ", "; Val lon; Lit "."] ;;;
    ret JNull
  else
  temperature <- lift (py_get current_weather "temperature") ;;
  windspeed <- lift (py_get current_weather "windspeed") ;;
  winddirection <- lift (py_get current_weather "winddirection") ;;
  weathercode <- lift (py_get current_weather "weathercode") ;;
  time <- lift (py_get current_weather "time") ;;
  ret (JObj [("temperature", temperature);
             ("windspeed", windspeed);
             ("winddirection", winddirection);
             ("weathercode", weathercode);
             ("timestamp", time)]).

(** ** Python arithmetic on numbers *)

(** An exception ends a computation of results. *)
Definition and_then {A B} (r : res A) (k : A -> res B) : res B :=
  match r with
  | Ok a => k a
  | Raise e => Raise e
  end.

Notation "x <~ r ;; k" := (and_then r (fun x => k))
  (at level 61, r at next level, right associativity).

(** A bool is an int in arithmetic. *)
Definition as_number (v : json) : option number :=
  match v with
  | JNum n => Some n
  | JBool b => Some (Int (if b then 1 else 0))
  | _ => None
  end.

(** [float(z)]: the nearest float, ties to even; an int beyond the floats
    raises. *)
Definition float_of_Z (z : Z) : res float :=
  match binary_normalize prec emax z 0 false with
  | S754_infinity _ => Raise OverflowError
  | sf => Ok (SF2Prim sf)
  end.

(** An int as the float-like triple it is exactly. *)
Definition exact_sf (z : Z) : spec_float :=
  match z with
  | Z0 => S754_zero false
  | Zpos m => S754_finite false m 0
  | Zneg m => S754_finite true m 0
  end.

(** [a < b].  Between numbers the values decide.  Any other operand raises
    [TypeError] here: where Python could still order the two (two strings,
    two lists), the [sum] of the same list raises [TypeError] anyway. *)
Definition py_lt (a b : json) : res bool :=
  match num_val a, num_val b with
  | Some x, Some y => Ok (xval_ltb x y)
  | _, _ => Raise TypeError
  end.

(** [a + b]: exact on ints; with a float, the int is converted first. *)
Definition py_add (a b : json) : res json :=
  match as_number a, as_number b with
  | Some (Int x), Some (Int y) => Ok (JNum (Int (x + y)))
  | Some (Int x), Some (Float g) => f <~ float_of_Z x ;; Ok (JNum (Float (f + g)%float))
  | Some (Float f), Some (Int y) => g <~ float_of_Z y ;; Ok (JNum (Float (f + g)%float))
  | Some (Float f), Some (Float g) => Ok (JNum (Float (f + g)%float))
  | _, _ => Raise TypeError
  end.

(** [a / n] for an int [n]: always a float.  Int by int is the correctly
    rounded quotient, and raises when that is beyond the floats. *)
Definition py_truediv (a : json) (n : Z) : res json :=
  if n =? 0 then Raise ZeroDivisionError else
  match as_number a with
  | Some (Int z) =>
      match SFdiv prec emax (exact_sf z) (exact_sf n) with
      | S754_infinity _ => Raise OverflowError
      | sf => Ok (JNum (Float (SF2Prim sf)))
      end
  | Some (Float f) => g <~ float_of_Z n ;; Ok (JNum (Float (f / g)%float))
  | None => Raise TypeError
  end.

(** ** compute_weather_stats *)

(** [min(xs)] scans left to right and replaces the value it holds only by a
    strictly smaller one; [max(xs)] only by a strictly greater one. *)
Fixpoint py_min_from (best : json) (rest : list json) : res json :=
  match rest with
  | [] => Ok best
  | x :: rest' =>
      smaller <~ py_lt x best ;;
      py_min_from (if smaller then x else best) rest'
  end.

Fixpoint py_max_from (best : json) (rest : list json) : res json :=
  match rest with
  | [] => Ok best
  | x :: rest' =>
      greater <~ py_lt best x ;;
      py_max_from (if greater then x else best) rest'
  end.

(** [sum(xs)]: starts from the int 0 and adds the items from the left, one
    [+] each, so every float addition is rounded.  (CPython 3.12 and later
    carry a correction term through a run of floats, which can change the
    last bit of such a sum; the plain left-to-right sum is modelled.) *)
Fixpoint py_sum_from (acc : json) (xs : list json) : res json :=
  match xs with
  | [] => Ok acc
  | x :: rest =>
      acc' <~ py_add acc x ;;
      py_sum_from acc' rest
  end.

Definition py_sum (xs : list json) : res json := py_sum_from (JNum (Int 0)) xs.

(** The temperatures are whatever the weather endpoint sent: ints, floats,
    bools, or values that are no numbers at all. *)
Definition compute_weather_stats (temperatures : list json) : res json :=
  match temperatures with
  | [] => Ok (JObj [("min", JNull); ("max", JNull); ("average", JNull)])
  | first :: rest =>
      min_temp <~ py_min_from first rest ;;
      max_temp <~ py_max_from first rest ;;
      total <~ py_sum temperatures ;;
      avg_temp <~ py_truediv total (Z.of_nat (List.length temperatures)) ;;
      Ok (JObj [("min", min_temp); ("max", max_temp); ("average", avg_temp)])
  end.

(** ** Formatting with [:.2f] *)

(** Nearest integer, ties to the even one. *)
Definition round_half_even (q : Q) : Z :=
  let n := Qnum q in
  let d := Zpos (Qden q) in
  let f := n / d in
  let r := n mod d in
  match 2 * r ?= d with
  | Lt => f
  | Gt => f + 1
  | Eq => if Z.even f then f else f + 1
  end.

Definition decimal (z : Z) : string := NilZero.string_of_uint (N.to_uint (Z.to_N z)).

(** A rational in fixed notation: sign, integer part, a point and exactly two
    digits, the nearest such decimal. *)
Definition format_2f (q : Q) : string :=
  let n := round_half_even (Qabs q * 100) in
  append (if Qltb q 0 then "-" else "")
    (append (decimal (n / 100))
       (append "." (append (decimal ((n mod 100) / 10)) (decimal (n mod 10))))).

(** [format(f, ".2f")] for a float: its exact value in fixed notation; a zero
    keeps its sign, and the infinities and NaN are spelled out. *)
Definition format_float_2f (f : float) : string :=
  match Prim2SF f with
  | S754_zero s => if s then "-0.00" else "0.00"
  | S754_infinity s => if s then "-inf" else "inf"
  | S754_nan => "nan"
  | S754_finite s m e => format_2f (inject_Z (if s then Zneg m else Zpos m) * pow2 e)
  end.

(** [f"{v:.2f}"] on an arbitrary value: an int or a bool is converted to a
    float first. *)
Definition format_spec_2f (v : json) : res string :=
  match v with
  | JNum (Float f) => Ok (format_float_2f f)
  | JNum (Int z) => f <~ float_of_Z z ;; Ok (format_float_2f f)
  | JBool b => Ok (format_float_2f (if b then 1 else 0)%float)
  | JStr _ => Raise ValueError
  | _ => Raise TypeError
  end.

(** [f"{v:20}"]. *)
Definition format_spec_20 (v : json) : res frag :=
  match v with
  | JNull | JArr _ | JObj _ => Raise TypeError
  | _ => Ok (Val20 v)
  end.

(** ** save_to_json *)

(** Every exception of the [try] block is caught, so the function never
    raises. *)
Definition save_to_json (w : world) (file_path : string) (data : dict) : M unit :=
  if writable w file_path then
    emit (EWrite file_path data) ;;;
    print Stdout [Lit "[info] Data successfully saved to "; Lit file_path]
  else
    print Stderr [Lit "[error] Failed to save data to "; Lit file_path; Lit ": ";
                  ExnText OSError].

(** [save_to_csv] is called by the orchestrator but defined nowhere in the
    module (and imported from nowhere): evaluating the name raises
    [NameError] before any argument is looked at. *)
Definition save_to_csv (w : world) (file_path : string) (data : dict) : M unit :=
  raise NameError.

(** ** print_weather_summary *)

(** The loop over [data.items()].  The list [temperatures] the source fills
    here is never read and is left out. *)
Fixpoint summary_loop (items : list (json * json)) : M unit :=
  match items with
  | [] => ret tt
  | (city, weather_info) :: rest =>
      if key_eqb city (JStr "stats") then summary_loop rest else
      temp <- lift (py_get weather_info "temperature") ;;
      city20 <- lift (format_spec_20 city) ;;
      windspeed <- lift (py_get weather_info "windspeed") ;;
      timestamp <- lift (py_get weather_info "timestamp") ;;
      print Stdout [city20; Lit "  Temp: "; Val temp; Lit "°C  Wind Speed: ";
                    Val windspeed; Lit " km/h  Time: "; Val timestamp] ;;;
      summary_loop rest
  end.

(** The conditional expression printed as the last line of the statistics
    block. *)
Definition average_line (stats : json) : M (list frag) :=
  cond <- lift (py_get stats "average") ;;
  if truthy cond then
    average <- lift (py_get stats "average") ;;
    text <- lift (format_spec_2f average) ;;
    ret [Lit "  Avg Temp: "; Lit text; Lit "°C"]
  else
    ret [Lit "  Avg Temp: n/a"].

Definition print_weather_summary (data : dict) : M unit :=
  match data with
  | [] => print Stdout [Lit "[info] No data to display."]
  | _ =>
      print Stdout [Lit (append NL "--- Weather Summary ---")] ;;;
      summary_loop data ;;;
      let stats := dict_get data (JStr "stats") in
      (if truthy stats then
         print Stdout [Lit (append NL "Statistics:")] ;;;
         max_temp <- lift (py_get stats "max") ;;
         print Stdout [Lit "  Max Temp: "; Val max_temp; Lit "°C"] ;;;
         min_temp <- lift (py_get stats "min") ;;
         print Stdout [Lit "  Min Temp: "; Val min_temp; Lit "°C"] ;;;
         line <- average_line stats ;;
         print Stdout line
       else ret tt) ;;;
      print Stdout [Lit (append "------------------------" NL)]
  end.

(** ** process_weather_for_cities *)

(** The body of [for city in cities], with the two accumulators. *)
Fixpoint cities_loop (w : world) (cities : list string) (weather_results : dict)
    (temperatures : list json) : M (dict * list json) :=
  match cities with
  | [] => ret (weather_results, temperatures)
  | city :: rest =>
      print Stdout [Lit "[info] Fetching data for "; Lit city; Lit "..."] ;;;
      coordinates <- get_city_coordinates w city ;;
      match coordinates with
      | None =>
          print Stdout [Lit "[warn] Skipping "; Lit city; Lit " due to geocoding issues."] ;;;
          cities_loop w rest weather_results temperatures
      | Some (lat, lon, city_name) =>
          weather <- get_current_weather_for_coordinates w lat lon ;;
          if negb (truthy weather) then
            print Stdout [Lit "[warn] No weather data available for "; Lit city; Lit "."] ;;;
            cities_loop w rest weather_results temperatures
          else
          temperature <- lift (py_getitem weather "temperature") ;;
          windspeed <- lift (py_getitem weather "windspeed") ;;
          winddirection <- lift (py_getitem weather "winddirection") ;;
          timestamp <- lift (py_getitem weather "timestamp") ;;
          weather_results' <-
            lift (dict_setitem weather_results city_name
                    (JObj [("temperature", temperature);
                           ("windspeed", windspeed);
                           ("winddirection", winddirection);
                           ("timestamp", timestamp)])) ;;
          temperature' <- lift (py_getitem weather "temperature") ;;
          let temperatures' :=
            if is_none temperature' then temperatures
            else temperatures ++ [temperature'] in
          sleep (1 # 2) ;;;
          cities_loop w rest weather_results' temperatures'
      end
  end.

Definition process_weather_for_cities (w : world) (cities : list string)
    (output_format : string) (output_file : option string) : M dict :=
  acc <- cities_loop w cities [] [] ;;
  let weather_results := fst acc in
  let temperatures := snd acc in
  stats <- lift (compute_weather_stats temperatures) ;;
  weather_results <- lift (dict_setitem weather_results (JStr "stats") stats) ;;
  (if (output_format =? "json")%string then
     save_to_json w (or_default output_file DEFAULT_JSON_OUTPUT) weather_results
   else
     save_to_csv w (or_default output_file DEFAULT_CSV_OUTPUT) weather_results) ;;;
  print_weather_summary weather_results ;;;
  ret weather_results.

(** ** main *)

(** The parsed command line ([argparse] itself is not modelled). *)
Record arguments : Type := {
  file : string;
  format : string;
  out : option string
}.

Definition main (w : world) (args : arguments) : M Z :=
  r <- attempt (read_city_names_from_file w (file args)) ;;
  match r with
  | Raise _ => ret 2
  | Ok cities =>
      match cities with
      | [] =>
          print Stderr [Lit "[error] Please add city names to the file"] ;;;
          ret 3
      | _ =>
          r' <- attempt (process_weather_for_cities w cities (format args) (out args)) ;;
          match r' with
          | Raise e =>
              print Stderr [Lit "[error] Something went wrong: "; ExnText e] ;;;
              ret 1
          | Ok _ => ret 0
          end
      end
  end.

(** * Vocabulary of the specification *)







(** What a run does to the outside: its requests, pauses and file writes,
    without the diagnostics it prints. *)
Definition is_print (e : event) : bool :=
  match e with EPrint _ _ => true | _ => false end.

Definition wire (ev : list event) : list event :=
  filter (fun e => negb (is_print e)) ev.

Definition is_write (e : event) : bool :=
  match e with EWrite _ _ => true | _ => false end.

(** The file writes of a run. *)
Definition writes (ev : list event) : list event := filter is_write ev.

(** The requests and pauses of [k] failed attempts followed by one more
    attempt. *)
Definition retry_wire (url : string) (p : params) (k : nat) : list event :=
  List.concat (repeat [EGet url p REQUEST_TIMEOUT_SECONDS; ESleep RETRY_DELAY] k)
    ++ [EGet url p REQUEST_TIMEOUT_SECONDS].

(** The attempt numbers [i+1 .. i+m]. *)
Definition attempts_from (i m : nat) : list Z :=
  map (fun t => 1 + Z.of_nat t) (seq i m).

Definition is_get (e : event) : bool :=
  match e with EGet _ _ _ => true | _ => false end.

(** The number of GET requests among the events of a run. *)
Definition gets (ev : list event) : nat := List.length (filter is_get ev).


(** ** Reading a geocoding response as the spec describes it *)

(** The field [key] of a mapping, [JNull] when it is missing or the value is
    no mapping. *)
Definition field (v : json) (key : string) : json :=
  match v with
  | JObj fields => assoc_get fields key
  | _ => JNull
  end.

Definition first_result (body : json) : json :=
  match field body "results" with
  | JArr (x :: _) => x
  | _ => JNull
  end.

(** The response's [results] sequence is empty or missing. *)
Definition results_empty_or_missing (body : json) : bool :=
  match field body "results" with
  | JNull | JArr [] => true
  | _ => false
  end.

(** A value lacks a field when [get] gives [None] for it. *)
Definition lacks (v : json) (key : string) : bool := is_none (field v key).

(** The absence cases as the spec lists them: the first result lacks both
    coordinates. *)
Definition absent_as_claimed (body : json) : bool :=
  is_none body || results_empty_or_missing body
  || (lacks (first_result body) "latitude" && lacks (first_result body) "longitude").

(** The absence cases with the last one widened to either coordinate. *)
Definition absent_either (body : json) : bool :=
  is_none body || results_empty_or_missing body
  || (lacks (first_result body) "latitude" || lacks (first_result body) "longitude").

(** The name the geocoder reports: the first result's name, or the input
    when that name is missing or falsy. *)
Definition resolved_name (body : json) (city_name : string) : json :=
  if truthy (field (first_result body) "name") then field (first_result body) "name"
  else JStr city_name.

(** A response of the documented shape: absent, or a mapping whose
    [results], when there, is a sequence that starts with a mapping. *)
Definition geocode_shaped (body : json) : bool :=
  match body with
  | JNull => true
  | JObj fields =>
      match assoc_get fields "results" with
      | JNull | JArr [] | JArr (JObj _ :: _) => true
      | _ => false
      end
  | _ => false
  end.

Definition geocode_params (city_name : string) : params :=
  [("name", JStr city_name); ("count", JNum 1)].

Definition weather_params (lat lon : json) : params :=
  [("latitude", lat); ("longitude", lon); ("current_weather", JBool true)].

(** ** Two decimal places *)



(** The last two lines [print_weather_summary] prints when the average is
    shown with two decimals, and when it is not available. *)
Definition footer : event := EPrint Stdout [Lit (append "------------------------" NL)].

Definition average_shown (text : string) : event :=
  EPrint Stdout [Lit "  Avg Temp: "; Lit text; Lit "°C"].



(** ** Runs that write no file, and the exit code the spec promises *)

(** A computation none of whose events, whatever the request count it starts
    from, is of the kind [f] selects. *)
Definition free_of {A} (f : event -> bool) (m : M A) : Prop :=
  forall c, filter f (events_of (m c)) = [].

(** A computation that writes no file. *)
Definition quiet {A} (m : M A) : Prop := free_of is_write m.

(** The 0.5-second pause of the city loop, and the number of such pauses in
    a run. *)
Definition is_city_pause (e : event) : bool :=
  match e with
  | ESleep seconds => Qeq_bool seconds (1 # 2)
  | _ => false
  end.

Definition city_pauses (ev : list event) : nat := List.length (filter is_city_pause ev).

(** The usable city names of a file: its non-blank lines, stripped. *)
Definition usable_names (lines : list string) : list string :=
  map strip (filter (fun line => negb (strip line =? "")%string) lines).


(** A result mapping as the pipeline builds it: one city and the stats. *)
Definition demo_data : dict :=
  [(JStr "Paris",
    JObj [("temperature", JNum 10); ("windspeed", JNum 7.2%float);
          ("winddirection", JNum 180); ("timestamp", JStr "2024-05-01T12:00")]);
   (JStr "stats", JObj [("min", JNum 10); ("max", JNum 10); ("average", JNum 10%float)])].

(** ** The cities of a run that were resolved and fetched *)

(** The resolved names of the cities for which, in a run that starts at
    request count [c], the geocoder returned coordinates and the weather
    lookup returned a reading, in input order. *)
Fixpoint successes (w : world) (cities : list string) (c : nat) : list json :=
  match cities with
  | [] => []
  | city :: rest =>
      match get_city_coordinates w city c with
      | (Ok (Some (lat, lon, city_name)), c1, _) =>
          match get_current_weather_for_coordinates w lat lon c1 with
          | (Ok weather, c2, _) =>
              if truthy weather then city_name :: successes w rest c2
              else successes w rest c2
          | (Raise _, _, _) => []
          end
      | (Ok None, c1, _) => successes w rest c1
      | (Raise _, _, _) => []
      end
  end.

(** A key is in a list of keys when some key of the list equals it. *)
Definition mem (ks : list json) (k : json) : bool :=
  existsb (fun x => key_eqb x k) ks.

(** What assigning to key [k] does to the keys of a dict. *)
Definition add_key (ks : list json) (k : json) : list json :=
  if mem ks k then ks else ks ++ [k].

(** No key equals a later one. *)
Fixpoint distinct_keys (ks : list json) : bool :=
  match ks with
  | [] => true
  | k :: rest => negb (existsb (key_eqb k) rest) && distinct_keys rest
  end.

(** The number of keys equal to ["stats"]. *)
Definition stats_keys (d : dict) : nat :=
  List.length (filter (fun k => key_eqb k (JStr "stats")) (keys d)).

(** ** A small world for the scenarios *)

Definition geocode_response (lat lon : Z) (name : string) : json :=
  JObj [("results",
         JArr [JObj [("latitude", JNum lat); ("longitude", JNum lon);
                     ("name", JStr name)]])].

Definition weather_response (temperature : Z) : json :=
  JObj [("current_weather",
         JObj [("temperature", JNum temperature); ("windspeed", JNum 7.2%float);
               ("winddirection", JNum 180); ("weathercode", JNum 3);
               ("time", JStr "2024-05-01T12:00")])].

Definition lat_only_body : json :=
  JObj [("results", JArr [JObj [("latitude", JNum 48); ("name", JStr "Halfway")]])].

Definition demo_geocoder (k : nat) (city : json) : outcome :=
  match city with
  | JStr name =>
      if (name =? "Paris")%string then Success (geocode_response 48 2 "Paris")
      else if (name =? "Tokyo")%string then Success (geocode_response 35 139 "Tokyo")
      else if (name =? "Atlantis")%string then Success (JObj [("results", JArr [])])
      else if (name =? "Halfway")%string then Success lat_only_body
      else if (name =? "Broken")%string then Success (JArr [JNum 1])
      else if (name =? "Void")%string then
        Success (JObj [("results",
                        JArr [JObj [("latitude", JNum 0); ("longitude", JNum 0);
                                    ("name", JStr "Void")]])])
      else if (name =? "Flaky")%string then
        match k with
        | O => Failed ConnectionError
        | S O => Failed (HTTPError 503)
        | _ => Success (geocode_response 48 2 "Paris")
        end
      else Failed Timeout
  | _ => Failed (HTTPError 400)
  end.

Definition demo_weather (lat : json) : outcome :=
  match lat with
  | JNum (Int z) =>
      if z =? 48 then Success (weather_response 10)
      else if z =? 35 then Success (weather_response 20)
      else if z =? 0 then Success (JObj [("current_weather", JObj [])])
      else Failed (HTTPError 500)
  | _ => Failed (HTTPError 400)
  end.

Definition demo_world : world := {|
  net := fun k url p =>
    if (url =? GEOCODE_API_URL)%string then demo_geocoder k (assoc_get p "name")
    else demo_weather (assoc_get p "latitude");
  files := fun path =>
    if (path =? "cities.txt")%string then Lines ["Paris"; "Nowhereville"; "Tokyo"]
    else if (path =? "blank.txt")%string then Lines [""; "   "]
    else if (path =? "twice.txt")%string then Lines ["Paris"; " Paris "]
    else if (path =? "skip.txt")%string then Lines ["Atlantis"; "Paris"]
    else if (path =? "broken.txt")%string then Lines ["Broken"]
    else if (path =? "locked.txt")%string then Unreadable
    else NotFound;
  writable := fun path => negb (path =? "/proc/out.json")%string
|}.

(** The spec's scenario: Paris and Tokyo are fetched, Nowhereville fails
    geocoding on every attempt. *)
Definition demo_run : res dict * nat * list event :=
  process_weather_for_cities demo_world ["Paris"; "Nowhereville"; "Tokyo"] "json" None 0%nat.

Definition demo_result : dict :=
  Eval vm_compute in
    match result_of demo_run with
    | Ok m => m
    | Raise _ => []
    end.

(** ** More vocabulary: readings, collected temperatures, printable entries *)

(** The reading the weather lookup builds from a [current_weather] section:
    five fields, each the section's value or [None], with [time] stored as
    [timestamp]. *)
Definition reading_of (section : json) : json :=
  JObj [("temperature", field section "temperature");
        ("windspeed", field section "windspeed");
        ("winddirection", field section "winddirection");
        ("weathercode", field section "weathercode");
        ("timestamp", field section "time")].

(** The temperatures of the cities that were resolved and fetched in a run
    that starts at request count [c], in input order, the [None] ones left
    out. *)
Fixpoint collected (w : world) (cities : list string) (c : nat) : list json :=
  match cities with
  | [] => []
  | city :: rest =>
      match get_city_coordinates w city c with
      | (Ok (Some (lat, lon, city_name)), c1, _) =>
          match get_current_weather_for_coordinates w lat lon c1 with
          | (Ok weather, c2, _) =>
              if truthy weather then
                if is_none (field weather "temperature") then collected w rest c2
                else field weather "temperature" :: collected w rest c2
              else collected w rest c2
          | (Raise _, _, _) => []
          end
      | (Ok None, c1, _) => collected w rest c1
      | (Raise _, _, _) => []
      end
  end.

(** A key [f"{key:20}"] accepts, and an entry the summary loop can print: such
    a key with a mapping as value. *)
Definition key_ok (k : json) : bool :=
  match k with
  | JNull | JArr _ | JObj _ => false
  | _ => true
  end.

Definition is_obj (v : json) : bool :=
  match v with JObj _ => true | _ => false end.

Definition printable (kv : json * json) : bool := key_ok (fst kv) && is_obj (snd kv).

(** The GET requests among the events of a run. *)
Definition requests (ev : list event) : list event := filter is_get ev.

(** A world whose answers do not depend on how many requests came before. *)
Definition stateless (w : world) : Prop :=
  forall k k' url p, net w k url p = net w k' url p.

(** A computation that issues at most [n] requests, whatever the request
    count it starts from. *)
Definition at_most {A} (n : nat) (m : M A) : Prop :=
  forall c, (gets (events_of (m c)) <= n)%nat.

(** A text that starts with a whitespace character, and one that ends with
    one (a character being one or more bytes of the text). *)
Definition starts_with_space (s : string) : Prop :=
  exists ch tail, In ch whitespace /\ list_ascii_of_string s = ch ++ tail.

Definition ends_with_space (s : string) : Prop :=
  exists ch front, In ch whitespace /\ list_ascii_of_string s = front ++ ch.

(** A computation whose result and events do not depend on the request
    count it starts from. *)
Definition index_free {A} (m : M A) : Prop :=
  forall c c', result_of (m c) = result_of (m c') /\ events_of (m c) = events_of (m c').

(** A city the loop skips when it meets it at request count [c]: the
    geocoder returns absence, or it returns coordinates and the weather
    lookup returns absence. *)
Definition skips (w : world) (city : string) (c : nat) : Prop :=
  result_of (get_city_coordinates w city c) = Ok None \/
  exists lat lon name weather,
    result_of (get_city_coordinates w city c) = Ok (Some (lat, lon, name)) /\
    result_of (get_current_weather_for_coordinates w lat lon
                 (count_of (get_city_coordinates w city c))) = Ok weather /\
    truthy weather = false.

(** The demo world with answers that do not depend on the request count. *)
Definition steady_world : world := {|
  net := fun _ url p => net demo_world 2%nat url p;
  files := files demo_world;
  writable := writable demo_world
|}.

(** The loop of the scenario run, evaluated. *)
Definition demo_loop : res (dict * list json) * nat * list event :=
  Eval vm_compute in
    cities_loop demo_world ["Paris"; "Nowhereville"; "Tokyo"] [] [] 0%nat.

Definition demo_loop_dict : dict :=
  Eval vm_compute in
    match result_of demo_loop with
    | Ok acc => fst acc
    | Raise _ => []
    end.

Definition demo_loop_temperatures : list json :=
  Eval vm_compute in
    match result_of demo_loop with
    | Ok acc => snd acc
    | Raise _ => []
    end.

(** * Properties *)

(** ** The statistics aggregator *)













(** ** Converting an int to a float *)











(** ** Sums and quotients *)













(** A temperature that is no number makes the aggregator raise
    [TypeError]: in the first comparison that meets it or, when it is the
    only temperature, in the sum. *)
Lemma py_lt_type_error (a b : json) :
  num_val a = None \/ num_val b = None -> py_lt a b = Raise TypeError.
Proof.
  unfold py_lt. intros [H|H]; rewrite H; [reflexivity|].
  now destruct (num_val a).
Qed.

Lemma py_min_from_type_error (rest : list json) :
  forall best,
    (exists t, In t rest /\ num_val t = None) \/ (num_val best = None /\ rest <> []) ->
    py_min_from best rest = Raise TypeError.
Proof.
  induction rest as [|x rest IH]; intros best H.
  - destruct H as [[t [[] _]]|[_ H]]. congruence.
  - cbn [py_min_from].
    destruct (num_val x) as [vx|] eqn:Ex;
      [|rewrite py_lt_type_error by (now left); reflexivity].
    destruct (num_val best) as [vb|] eqn:Eb;
      [|rewrite py_lt_type_error by (now right); reflexivity].
    unfold py_lt. rewrite Ex, Eb. cbn [and_then].
    apply IH. left. destruct H as [[t [[<-|Hin] Ht]]|[Hb _]]; [congruence| |congruence].
    now exists t.
Qed.

Lemma compute_weather_stats_type_error (temperatures : list json) (t : json) :
  In t temperatures -> num_val t = None ->
  compute_weather_stats temperatures = Raise TypeError.
Proof.
  intros Hin Ht. destruct temperatures as [|first rest]; [destruct Hin|].
  cbn [compute_weather_stats].
  destruct rest as [|second rest].
  - destruct Hin as [->|[]]. cbn [py_min_from py_max_from and_then].
    unfold py_sum. cbn [py_sum_from]. unfold py_add.
    destruct t as [| | | | |]; try discriminate Ht; reflexivity.
  - rewrite py_min_from_type_error; [reflexivity|].
    destruct Hin as [<-|Hin]; [right; split; [exact Ht|discriminate]|].
    left. now exists t.
Qed.

(** The spec's scenario: a single temperature 10 gives min, max and average
    10. *)
Example compute_weather_stats_single :
  compute_weather_stats [JNum 10] =
    Ok (JObj [("min", JNum 10); ("max", JNum 10); ("average", JNum 10%float)]).
Proof. vm_compute. reflexivity. Qed.

(** Floats: the sum is rounded at every step, so the order of the
    temperatures shows in the average. *)
Example compute_weather_stats_order :
  compute_weather_stats [JNum 0.1%float; JNum 0.2%float; JNum 0.3%float] =
    Ok (JObj [("min", JNum 0.1%float); ("max", JNum 0.3%float);
              ("average", JNum 0.20000000000000004%float)]) /\
  compute_weather_stats [JNum 0.3%float; JNum 0.2%float; JNum 0.1%float] =
    Ok (JObj [("min", JNum 0.1%float); ("max", JNum 0.3%float);
              ("average", JNum 0.19999999999999998%float)]).
Proof. split; vm_compute; reflexivity. Qed.

(** A bool among the temperatures is kept as it is when it is the min or the
    max, and counts as 0 or 1 in the sum; a sum of floats beyond the floats
    is an infinity, not an exception; a value that is no number raises
    [TypeError]. *)
Example compute_weather_stats_mixed :
  compute_weather_stats [JBool true; JNum 0.5%float] =
    Ok (JObj [("min", JNum 0.5%float); ("max", JBool true); ("average", JNum 0.75%float)]) /\
  compute_weather_stats [JNum 1e308%float; JNum 1e308%float] =
    Ok (JObj [("min", JNum 1e308%float); ("max", JNum 1e308%float);
              ("average", JNum infinity)]) /\
  compute_weather_stats [JStr "mild"] = Raise TypeError.
Proof. repeat split; vm_compute; reflexivity. Qed.

(** C8: on the empty sequence all three fields are absent. *)
Theorem compute_weather_stats_empty :
  compute_weather_stats [] =
    Ok (JObj [("min", JNull); ("max", JNull); ("average", JNull)]) /\
  (stats <~ compute_weather_stats [] ;; py_get stats "min") = Ok JNull /\
  (stats <~ compute_weather_stats [] ;; py_get stats "max") = Ok JNull /\
  (stats <~ compute_weather_stats [] ;; py_get stats "average") = Ok JNull.
Proof. repeat split. Qed.

(** ** The retrying fetcher *)

Lemma fetch_loop_step (w : world) (url : string) (p : params) (retries : Z)
    (attempt_no : Z) (rest : list Z) (c : nat) :
  fetch_loop w url p retries (attempt_no :: rest) c =
    match net w c url p with
    | Success body => (Ok body, S c, [EGet url p REQUEST_TIMEOUT_SECONDS])
    | Failed err =>
        if attempt_no <? retries then
          match fetch_loop w url p retries rest (S c) with
          | (r, c', ev) =>
              (r, c',
               EGet url p REQUEST_TIMEOUT_SECONDS
               :: EPrint Stderr [Lit "[info] Request failed (attempt "; IntText attempt_no;
                                 Lit "): "; ErrText err; Lit ". Retrying..."]
               :: ESleep RETRY_DELAY :: ev)
          end
        else
          (Ok JNull, S c,
           [EGet url p REQUEST_TIMEOUT_SECONDS;
            EPrint Stderr [Lit "[error] Failed after "; IntText attempt_no;
                           Lit " retries: "; ErrText err]])
    end.
Proof.
  simpl. unfold bind, http_get. destruct (net w c url p) as [body|err]; [reflexivity|].
  destruct (attempt_no <? retries); [|reflexivity].
  unfold print, sleep, emit.
  destruct (fetch_loop w url p retries rest (S c)) as [[r c'] ev]. reflexivity.
Qed.

Lemma py_range_attempts (n : Z) : py_range 1 (n + 1) = attempts_from 0 (Z.to_nat n).
Proof. unfold py_range, attempts_from. now replace (n + 1 - 1) with n by lia. Qed.

Lemma attempts_from_S (i m : nat) :
  attempts_from i (S m) = (1 + Z.of_nat i) :: attempts_from (S i) m.
Proof. reflexivity. Qed.

Lemma retry_wire_S (url : string) (p : params) (k : nat) :
  retry_wire url p (S k) =
    EGet url p REQUEST_TIMEOUT_SECONDS :: ESleep RETRY_DELAY :: retry_wire url p k.
Proof. reflexivity. Qed.



(** One request per attempt at most, and never an exception. *)
Lemma fetch_loop_bound (w : world) (url : string) (p : params) (retries : Z) :
  forall (attempts : list Z) (c : nat),
    (gets (events_of (fetch_loop w url p retries attempts c)) <= List.length attempts)%nat /\
    count_of (fetch_loop w url p retries attempts c) =
      (c + gets (events_of (fetch_loop w url p retries attempts c)))%nat /\
    exists v, result_of (fetch_loop w url p retries attempts c) = Ok v.
Proof.
  induction attempts as [|a rest IH]; intros c.
  - simpl. repeat split; [cbn; lia| cbn; lia | now exists JNull].
  - rewrite fetch_loop_step. destruct (net w c url p) as [body|err].
    + repeat split; [cbn; lia|cbn; lia|now exists body].
    + destruct (a <? retries).
      * destruct (IH (S c)) as [Hle [Hc [v Hv]]].
        destruct (fetch_loop w url p retries rest (S c)) as [[r c'] ev].
        unfold events_of, count_of, result_of, gets in *. simpl in *.
        repeat split; [lia|lia|now exists v].
      * repeat split; [cbn; lia|cbn; lia|now exists JNull].
Qed.



(** Two failures of different kinds, then a success: three requests, two
    pauses, the third body returned. *)
Example fetch_flaky :
  result_of (fetch_data_with_retries demo_world GEOCODE_API_URL
               (geocode_params "Flaky") RETRY_ATTEMPTS 0%nat) =
    Ok (geocode_response 48 2 "Paris") /\
  wire (events_of (fetch_data_with_retries demo_world GEOCODE_API_URL
                     (geocode_params "Flaky") RETRY_ATTEMPTS 0%nat)) =
    [EGet GEOCODE_API_URL (geocode_params "Flaky") 10; ESleep (3 # 2);
     EGet GEOCODE_API_URL (geocode_params "Flaky") 10; ESleep (3 # 2);
     EGet GEOCODE_API_URL (geocode_params "Flaky") 10].
Proof. split; reflexivity. Qed.

(** Three failures: absence, after three requests and two pauses. *)
Example fetch_exhausted :
  result_of (fetch_data_with_retries demo_world GEOCODE_API_URL
               (geocode_params "Nowhereville") RETRY_ATTEMPTS 0%nat) = Ok JNull /\
  wire (events_of (fetch_data_with_retries demo_world GEOCODE_API_URL
                     (geocode_params "Nowhereville") RETRY_ATTEMPTS 0%nat)) =
    [EGet GEOCODE_API_URL (geocode_params "Nowhereville") 10; ESleep (3 # 2);
     EGet GEOCODE_API_URL (geocode_params "Nowhereville") 10; ESleep (3 # 2);
     EGet GEOCODE_API_URL (geocode_params "Nowhereville") 10].
Proof. split; reflexivity. Qed.

(** ** The geocoder *)

(** C3, as amended: on a response of the documented shape the geocoder
    returns absence exactly when the fetcher returned absence, the results
    are empty or missing, or the first result lacks latitude or lacks
    longitude; otherwise it returns the first result's coordinates with the
    resolved name. *)
Theorem get_city_coordinates_cases (w : world) (city_name : string) (c c' : nat)
    (body : json) (ev : list event) :
  fetch_data_with_retries w GEOCODE_API_URL (geocode_params city_name) RETRY_ATTEMPTS c =
    (Ok body, c', ev) ->
  geocode_shaped body = true ->
  result_of (get_city_coordinates w city_name c) =
    Ok (if absent_either body then None
        else Some (field (first_result body) "latitude",
                   field (first_result body) "longitude",
                   resolved_name body city_name)).
Proof.
  intros Hfetch Hshape.
  unfold get_city_coordinates, bind. fold (geocode_params city_name). rewrite Hfetch.
  destruct body as [| | | |items|fields]; try discriminate Hshape.
  - reflexivity.
  - destruct fields as [|kv fields]; [reflexivity|].
    set (f := kv :: fields) in *.
    cbv beta iota delta
      [absent_either results_empty_or_missing first_result resolved_name lacks field].
    unfold geocode_shaped in Hshape.
    change (truthy (JObj f)) with true. cbn [negb lift py_get].
    destruct (assoc_get f "results") as [| | | |results|];
      try discriminate Hshape; [reflexivity|].
    destruct results as [|r results]; [reflexivity|].
    destruct r as [| | | | |first]; try discriminate Hshape.
    cbn [truthy negb lift py_index0 py_get is_none orb].
    destruct (assoc_get first "latitude"), (assoc_get first "longitude");
      cbn [is_none orb]; unfold print, emit;
      destruct (truthy (assoc_get first "name")); reflexivity.
Qed.

Lemma get_city_coordinates_cases_witness :
  result_of (get_city_coordinates demo_world "Paris" 0%nat) =
    Ok (Some (JNum 48, JNum 2, JStr "Paris")).
Proof.
  exact (get_city_coordinates_cases demo_world "Paris" 0%nat 1%nat
           (geocode_response 48 2 "Paris")
           [EGet GEOCODE_API_URL (geocode_params "Paris") REQUEST_TIMEOUT_SECONDS]
           eq_refl eq_refl).
Defined.

(** C3, as stated, fails: a first result with a latitude and no longitude
    lacks only one of the two, and the geocoder returns absence all the
    same. *)
Lemma get_city_coordinates_lat_only :
  result_of (fetch_data_with_retries demo_world GEOCODE_API_URL
               (geocode_params "Halfway") RETRY_ATTEMPTS 0%nat) = Ok lat_only_body /\
  geocode_shaped lat_only_body = true /\
  absent_as_claimed lat_only_body = false /\
  result_of (get_city_coordinates demo_world "Halfway" 0%nat) = Ok None.
Proof. repeat split. Qed.

(** Outside the documented shape the geocoder raises instead of returning:
    a top-level sequence has no [get]. *)
Example get_city_coordinates_raises :
  result_of (get_city_coordinates demo_world "Broken" 0%nat) = Raise AttributeError.
Proof. reflexivity. Qed.

(** The resolved name falls back to the input when the response has none. *)
Example resolved_name_fallback :
  resolved_name (JObj [("results", JArr [JObj [("latitude", JNum 1); ("longitude", JNum 2)]])])
    "Lyon" = JStr "Lyon".
Proof. reflexivity. Qed.

(** ** The weather lookup *)

(** C10: a [current_weather] section that is an empty mapping gives absence
    (with the warning), not a reading of absent fields; and a falsy response
    body is treated exactly as the fetcher's absence. *)
Theorem get_current_weather_falsy (w : world) (lat lon : json) (c c' : nat)
    (body : json) (ev : list event) :
  fetch_data_with_retries w WEATHER_API_URL (weather_params lat lon) RETRY_ATTEMPTS c =
    (Ok body, c', ev) ->
  (py_get body "current_weather" = Ok (JObj []) ->
   get_current_weather_for_coordinates w lat lon c =
     (Ok JNull, c',
      ev ++ [EPrint Stderr [Lit "[warning] No current weather data found for coordinates ";
                            Val lat; Lit ", "; Val lon; Lit "."]])) /\
  (truthy body = false ->
   get_current_weather_for_coordinates w lat lon c = (Ok JNull, c', ev)).
Proof.
  intros Hfetch.
  unfold get_current_weather_for_coordinates, bind. fold (weather_params lat lon).
  rewrite Hfetch. split.
  - intros Hget. destruct body as [| | | | |fields]; try discriminate Hget.
    destruct fields as [|kv fields]; [discriminate Hget|].
    change (truthy (JObj (kv :: fields))) with true. cbn [negb lift].
    rewrite Hget. reflexivity.
  - intros Hfalsy. rewrite Hfalsy. cbn [negb ret]. now rewrite app_nil_r.
Qed.

Lemma get_current_weather_falsy_witness :
  (py_get (JObj [("current_weather", JObj [])]) "current_weather" = Ok (JObj []) ->
   get_current_weather_for_coordinates demo_world (JNum 0) (JNum 0) 0%nat =
     (Ok JNull, 1%nat,
      [EGet WEATHER_API_URL (weather_params (JNum 0) (JNum 0)) REQUEST_TIMEOUT_SECONDS]
      ++ [EPrint Stderr [Lit "[warning] No current weather data found for coordinates ";
                         Val (JNum 0); Lit ", "; Val (JNum 0); Lit "."]])) /\
  (truthy (JObj [("current_weather", JObj [])]) = false ->
   get_current_weather_for_coordinates demo_world (JNum 0) (JNum 0) 0%nat =
     (Ok JNull, 1%nat,
      [EGet WEATHER_API_URL (weather_params (JNum 0) (JNum 0)) REQUEST_TIMEOUT_SECONDS])).
Proof.
  exact (get_current_weather_falsy demo_world (JNum 0) (JNum 0) 0%nat 1%nat
           (JObj [("current_weather", JObj [])])
           [EGet WEATHER_API_URL (weather_params (JNum 0) (JNum 0)) REQUEST_TIMEOUT_SECONDS]
           eq_refl).
Defined.

(** The empty section gives absence, where a section with one unknown field
    gives a reading whose fields are all absent. *)
Example current_weather_empty_section :
  result_of (get_current_weather_for_coordinates demo_world (JNum 0) (JNum 0) 0%nat) =
    Ok JNull.
Proof. reflexivity. Qed.

Example current_weather_unknown_field :
  result_of
    (get_current_weather_for_coordinates
       {| net := fun _ _ _ =>
            Success (JObj [("current_weather", JObj [("interval", JNum 900)])]);
          files := fun _ => NotFound;
          writable := fun _ => true |}
       (JNum 0) (JNum 0) 0%nat) =
    Ok (JObj [("temperature", JNull); ("windspeed", JNull); ("winddirection", JNull);
              ("weathercode", JNull); ("timestamp", JNull)]).
Proof. reflexivity. Qed.

(** ** The summary printer *)



















(** Everything the printer prints for one city and its statistics. *)
Example print_weather_summary_demo :
  print_weather_summary demo_data 0%nat =
    (Ok tt, 0%nat,
     [EPrint Stdout [Lit (append NL "--- Weather Summary ---")];
      EPrint Stdout [Val20 (JStr "Paris"); Lit "  Temp: "; Val (JNum 10);
                     Lit "°C  Wind Speed: "; Val (JNum 7.2%float); Lit " km/h  Time: ";
                     Val (JStr "2024-05-01T12:00")];
      EPrint Stdout [Lit (append NL "Statistics:")];
      EPrint Stdout [Lit "  Max Temp: "; Val (JNum 10); Lit "°C"];
      EPrint Stdout [Lit "  Min Temp: "; Val (JNum 10); Lit "°C"];
      average_shown "10.00";
      footer]).
Proof. vm_compute. reflexivity. Qed.

(** An average of 10 is printed as 10.00, one of 0.125 as 0.12 and one of
    -0.001 as -0.00; an average of exactly zero, like a missing one, as
    n/a. *)
Example average_line_ten :
  (stats <- lift (compute_weather_stats [JNum 10]) ;; average_line stats) 0%nat =
    (Ok [Lit "  Avg Temp: "; Lit "10.00"; Lit "°C"], 0%nat, []).
Proof. vm_compute. reflexivity. Qed.

Example average_line_rounds :
  average_line (JObj [("average", JNum 0.125%float)]) 0%nat =
    (Ok [Lit "  Avg Temp: "; Lit "0.12"; Lit "°C"], 0%nat, []) /\
  average_line (JObj [("average", JNum (-0.001)%float)]) 0%nat =
    (Ok [Lit "  Avg Temp: "; Lit "-0.00"; Lit "°C"], 0%nat, []).
Proof. split; vm_compute; reflexivity. Qed.

Example average_line_zero :
  (stats <- lift (compute_weather_stats [JNum (-5); JNum 5]) ;; average_line stats) 0%nat =
    (Ok [Lit "  Avg Temp: n/a"], 0%nat, []).
Proof. vm_compute. reflexivity. Qed.

Example average_line_absent :
  (stats <- lift (compute_weather_stats []) ;; average_line stats) 0%nat =
    (Ok [Lit "  Avg Temp: n/a"], 0%nat, []).
Proof. vm_compute. reflexivity. Qed.

(** ** Events a computation does not produce *)

Section EventFree.

Variable f : event -> bool.
Hypothesis f_print : forall st msg, f (EPrint st msg) = false.
Hypothesis f_get : forall url p t, f (EGet url p t) = false.
Hypothesis f_retry : f (ESleep RETRY_DELAY) = false.

Lemma free_ret {A} (a : A) : free_of f (ret a).
Proof. intros c. reflexivity. Qed.

Lemma free_raise {A} (e : exn) : free_of f (@raise A e).
Proof. intros c. reflexivity. Qed.

Lemma free_lift {A} (r : res A) : free_of f (lift r).
Proof. intros c. reflexivity. Qed.

Lemma free_emit (e : event) : f e = false -> free_of f (emit e).
Proof. intros He c. cbn. now rewrite He. Qed.

Lemma free_print (st : stream) (msg : list frag) : free_of f (print st msg).
Proof. apply free_emit, f_print. Qed.

Lemma free_http_get (w : world) (url : string) (p : params) (t : Z) :
  free_of f (http_get w url p t).
Proof. intros c. cbn. now rewrite f_get. Qed.

Lemma free_bind {A B} (m : M A) (k : A -> M B) :
  free_of f m -> (forall a, free_of f (k a)) -> free_of f (bind m k).
Proof.
  intros Hm Hk c. unfold bind. specialize (Hm c).
  destruct (m c) as [[r c1] ev1]. destruct r as [a|e]; [|exact Hm].
  specialize (Hk a c1). destruct (k a c1) as [[r2 c2] ev2].
  unfold events_of in *. cbn [snd] in *. now rewrite filter_app, Hm, Hk.
Qed.

Lemma free_attempt {A} (m : M A) : free_of f m -> free_of f (attempt m).
Proof.
  intros Hm c. unfold attempt. specialize (Hm c).
  now destruct (m c) as [[r c1] ev1].
Qed.

Ltac free_step :=
  first
    [ apply free_ret | apply free_raise | apply free_lift | apply free_print
    | apply free_http_get
    | apply free_emit; first [exact f_retry | reflexivity]
    | apply free_bind; [|intros ?]
    | assumption ].

Ltac free_branch :=
  match goal with
  | |- free_of _ (if ?b then _ else _) => destruct b
  | |- free_of _ (match ?x with _ => _ end) => destruct x
  end.

Ltac free_auto := repeat first [free_step | free_branch].

Lemma free_fetch_loop (w : world) (url : string) (p : params) (retries : Z)
    (attempts : list Z) :
  free_of f (fetch_loop w url p retries attempts).
Proof.
  induction attempts as [|a rest IH]; cbn [fetch_loop]; free_auto.
Qed.

Lemma free_fetch (w : world) (url : string) (p : params) (retries : Z) :
  free_of f (fetch_data_with_retries w url p retries).
Proof. apply free_fetch_loop. Qed.

Lemma free_get_city_coordinates (w : world) (city_name : string) :
  free_of f (get_city_coordinates w city_name).
Proof.
  unfold get_city_coordinates.
  apply free_bind; [apply free_fetch|intros ?]. free_auto.
Qed.

Lemma free_get_current_weather (w : world) (lat lon : json) :
  free_of f (get_current_weather_for_coordinates w lat lon).
Proof.
  unfold get_current_weather_for_coordinates.
  apply free_bind; [apply free_fetch|intros ?]. free_auto.
Qed.

Lemma free_summary_loop (items : list (json * json)) : free_of f (summary_loop items).
Proof.
  induction items as [|[city weather_info] rest IH]; cbn [summary_loop]; free_auto.
Qed.

Lemma free_average_line (stats : json) : free_of f (average_line stats).
Proof. unfold average_line. free_auto. Qed.

Lemma free_print_weather_summary (data : dict) : free_of f (print_weather_summary data).
Proof.
  unfold print_weather_summary. destruct data as [|kv data]; [apply free_print|].
  apply free_bind; [apply free_print|intros _].
  apply free_bind; [apply free_summary_loop|intros _].
  apply free_bind; [|intros _; apply free_print].
  destruct (truthy (dict_get (kv :: data) (JStr "stats"))); [|apply free_ret].
  repeat first [apply free_average_line | free_step].
Qed.

Lemma free_read_city_names_from_file (w : world) (file_path : string) :
  free_of f (read_city_names_from_file w file_path).
Proof. unfold read_city_names_from_file. free_auto. Qed.

End EventFree.

(** ** Runs that write no file *)

Lemma quiet_bind {A B} (m : M A) (k : A -> M B) :
  quiet m -> (forall a, quiet (k a)) -> quiet (bind m k).
Proof. apply free_bind. Qed.

Lemma quiet_get_city_coordinates (w : world) (city_name : string) :
  quiet (get_city_coordinates w city_name).
Proof. apply free_get_city_coordinates; reflexivity. Qed.

Lemma quiet_get_current_weather (w : world) (lat lon : json) :
  quiet (get_current_weather_for_coordinates w lat lon).
Proof. apply free_get_current_weather; reflexivity. Qed.

Lemma quiet_print_weather_summary (data : dict) : quiet (print_weather_summary data).
Proof. apply free_print_weather_summary. reflexivity. Qed.

Lemma quiet_cities_loop (w : world) (cities : list string) :
  forall weather_results temperatures,
    quiet (cities_loop w cities weather_results temperatures).
Proof.
  induction cities as [|city rest IH]; intros weather_results temperatures;
    cbn [cities_loop].
  - apply free_ret.
  - apply quiet_bind; [now apply free_print|intros _].
    apply quiet_bind; [apply quiet_get_city_coordinates|intros coordinates].
    destruct coordinates as [[[lat lon] city_name]|].
    + apply quiet_bind; [apply quiet_get_current_weather|intros weather].
      destruct (negb (truthy weather)).
      * apply quiet_bind; [now apply free_print|intros _]. apply IH.
      * repeat (apply quiet_bind; [apply free_lift|intros ?]).
        apply quiet_bind; [now apply free_emit|intros _]. apply IH.
    + apply quiet_bind; [now apply free_print|intros _]. apply IH.
Qed.

(** ** The delimited-text output *)

(** C1: whenever the format is not ["json"] the orchestrator reaches the
    call of [save_to_csv], which the module does not define, or raises
    before it; it returns no mapping and writes no file. *)
Theorem process_weather_for_cities_csv (w : world) (cities : list string)
    (output_format : string) (output_file : option string) (c : nat) :
  (output_format =? "json")%string = false ->
  (exists e, result_of (process_weather_for_cities w cities output_format output_file c)
             = Raise e) /\
  writes (events_of (process_weather_for_cities w cities output_format output_file c)) = [].
Proof.
  intros Hfmt. split.
  - unfold process_weather_for_cities. rewrite Hfmt. unfold bind.
    destruct (cities_loop w cities [] [] c) as [[[acc|e] c1] ev1]; [|now exists e].
    unfold lift at 1.
    destruct (compute_weather_stats (snd acc)) as [stats|e]; [|now exists e].
    now exists NameError.
  - revert c. change (quiet (process_weather_for_cities w cities output_format output_file)).
    unfold process_weather_for_cities. rewrite Hfmt.
    apply quiet_bind; [apply quiet_cities_loop|intros acc].
    apply quiet_bind; [apply free_lift|intros stats].
    apply quiet_bind; [apply free_lift|intros weather_results].
    apply quiet_bind; [apply free_raise|intros _].
    apply quiet_bind; [apply quiet_print_weather_summary|intros _].
    apply free_ret.
Qed.

Lemma process_weather_for_cities_csv_witness :
  (exists e, result_of (process_weather_for_cities demo_world ["Paris"] "csv" None 0%nat)
             = Raise e) /\
  writes (events_of (process_weather_for_cities demo_world ["Paris"] "csv" None 0%nat)) = [].
Proof.
  apply (process_weather_for_cities_csv demo_world ["Paris"] "csv" None 0%nat).
  reflexivity.
Defined.

(** The same run seen from [main]: the geocoder and the weather lookup both
    succeed for Paris, and the run ends with exit code 1 and no file. *)
Example main_csv_exit_1 :
  result_of (main demo_world {| file := "twice.txt"; format := "csv"; out := None |} 0%nat)
    = Ok 1 /\
  result_of (process_weather_for_cities demo_world ["Paris"] "csv" None 0%nat)
    = Raise NameError /\
  writes (events_of (main demo_world {| file := "twice.txt"; format := "csv"; out := None |}
                       0%nat)) = [].
Proof. repeat split. Qed.

(** ** Exit codes *)


Example usable_names_skips_blank :
  usable_names ["Paris"; "   "; ""; "  New York "] = ["Paris"; "New York"].
Proof. reflexivity. Qed.

(** The spec's scenarios, on the demo world. *)
Example main_exit_0 :
  result_of (main demo_world {| file := "cities.txt"; format := "json"; out := None |} 0%nat)
    = Ok 0.
Proof. reflexivity. Qed.

Example main_exit_0_unwritable :
  result_of (main demo_world
               {| file := "cities.txt"; format := "json"; out := Some "/proc/out.json" |}
               0%nat) = Ok 0 /\
  writes (events_of (main demo_world
                       {| file := "cities.txt"; format := "json";
                          out := Some "/proc/out.json" |} 0%nat)) = [].
Proof. split; reflexivity. Qed.

Example main_exit_1_malformed :
  result_of (main demo_world {| file := "broken.txt"; format := "json"; out := None |} 0%nat)
    = Ok 1.
Proof. reflexivity. Qed.

Example main_exit_2_missing :
  main demo_world {| file := "nowhere.txt"; format := "json"; out := None |} 0%nat =
    (Ok 2, 0%nat, [EPrint Stderr [Lit "[error] Could not find file: "; Lit "nowhere.txt"]]).
Proof. reflexivity. Qed.

Example main_exit_2_unreadable :
  result_of (main demo_world {| file := "locked.txt"; format := "json"; out := None |} 0%nat)
    = Ok 2.
Proof. reflexivity. Qed.

Example main_exit_3_blank :
  main demo_world {| file := "blank.txt"; format := "json"; out := None |} 0%nat =
    (Ok 3, 0%nat,
     [EPrint Stderr [Lit "[warning] The file '"; Lit "blank.txt";
                     Lit "' was read, but no cities were found."];
      EPrint Stderr [Lit "[error] Please add city names to the file"]]).
Proof. reflexivity. Qed.

(** ** The keys of the result mapping *)

Lemma xval_same_trans (x y z : xval) :
  xval_same x y = true -> xval_same y z = true -> xval_same x z = true.
Proof.
  destruct x as [a| | |], y as [b| | |], z as [d| | |]; cbn; try congruence.
  apply Qeq_bool_trans.
Qed.

Lemma xval_same_refl (x : xval) : xval_same x x = true.
Proof. destruct x; cbn; try reflexivity. apply Qeq_bool_refl. Qed.

Lemma key_eqb_true (a b : json) :
  key_eqb a b = true ->
  (a = JNull /\ b = JNull) \/
  (exists s, a = JStr s /\ b = JStr s) \/
  (exists x y, num_val a = Some x /\ num_val b = Some y /\ xval_same x y = true).
Proof.
  destruct a, b; cbn [key_eqb num_val]; intros H; try discriminate H;
    try (right; right; eexists; eexists; repeat split; exact H).
  - now left.
  - right. left. apply String.eqb_eq in H. subst. now eexists.
Qed.

Lemma key_eqb_num (a b : json) (x y : xval) :
  num_val a = Some x -> num_val b = Some y -> key_eqb a b = xval_same x y.
Proof.
  destruct a, b; cbn [key_eqb num_val]; intros Hx Hy; try discriminate Hx;
    try discriminate Hy; injection Hx as <-; injection Hy as <-; reflexivity.
Qed.

Lemma key_eqb_trans (a b c : json) :
  key_eqb a b = true -> key_eqb b c = true -> key_eqb a c = true.
Proof.
  intros Hab Hbc.
  destruct (key_eqb_true _ _ Hab) as [[-> ->]|[[s [-> ->]]|[x [y [Hx [Hy Hxy]]]]]];
    [exact Hbc|exact Hbc|].
  destruct (key_eqb_true _ _ Hbc) as [[-> ->]|[[s [-> ->]]|[y' [z [Hy' [Hz Hyz]]]]]];
    [discriminate Hy|discriminate Hy|].
  rewrite Hy in Hy'. injection Hy' as <-.
  rewrite (key_eqb_num a c x z Hx Hz). now apply xval_same_trans with y.
Qed.

Lemma key_eqb_str (k : json) (s : string) : key_eqb k (JStr s) = true -> k = JStr s.
Proof.
  destruct k; cbn; try discriminate. intros H. apply String.eqb_eq in H. now subst.
Qed.

Lemma key_eqb_str_sym (k : json) (s : string) : key_eqb (JStr s) k = key_eqb k (JStr s).
Proof. destruct k; cbn; try reflexivity. apply String.eqb_sym. Qed.

Lemma keys_dict_set (d : dict) (k v : json) : keys (dict_set d k v) = add_key (keys d) k.
Proof.
  unfold add_key, mem. induction d as [|[k0 v0] d IH]; cbn; [reflexivity|].
  destruct (key_eqb k0 k); cbn; [reflexivity|].
  fold (keys d). fold (keys (dict_set d k v)). rewrite IH.
  now destruct (existsb (fun x => key_eqb x k) (keys d)).
Qed.

Lemma mem_app (ks ks' : list json) (k : json) : mem (ks ++ ks') k = mem ks k || mem ks' k.
Proof. apply existsb_app. Qed.

Lemma mem_trans (ks : list json) (n k : json) :
  mem ks n = true -> key_eqb n k = true -> mem ks k = true.
Proof.
  unfold mem. intros Hn Hk. apply existsb_exists in Hn. destruct Hn as [x [Hin Hx]].
  apply existsb_exists. exists x. split; [exact Hin|]. now apply key_eqb_trans with n.
Qed.

Lemma mem_add_key (ks : list json) (n k : json) :
  mem (add_key ks n) k = mem ks k || key_eqb n k.
Proof.
  unfold add_key. destruct (mem ks n) eqn:E.
  - destruct (key_eqb n k) eqn:Ek; [|now rewrite orb_false_r].
    now rewrite (mem_trans ks n k E Ek).
  - rewrite mem_app. cbn. now rewrite orb_false_r.
Qed.

Lemma mem_fold_add_key (names : list json) :
  forall ks k, mem (fold_left add_key names ks) k = mem ks k || mem names k.
Proof.
  induction names as [|n names IH]; intros ks k; cbn [fold_left].
  - unfold mem. cbn. now rewrite orb_false_r.
  - rewrite IH, mem_add_key. unfold mem. cbn. now rewrite orb_assoc.
Qed.

Lemma distinct_keys_snoc (ks : list json) (k : json) :
  distinct_keys ks = true -> mem ks k = false -> distinct_keys (ks ++ [k]) = true.
Proof.
  induction ks as [|k0 ks IH]; cbn; [reflexivity|].
  intros Hd Hm. apply andb_true_iff in Hd. destruct Hd as [Hk0 Hd].
  apply orb_false_iff in Hm. destruct Hm as [Hk0k Hm].
  rewrite existsb_app. cbn. rewrite Hk0k.
  apply negb_true_iff in Hk0. rewrite Hk0. cbn. now apply IH.
Qed.

Lemma distinct_keys_add_key (ks : list json) (k : json) :
  distinct_keys ks = true -> distinct_keys (add_key ks k) = true.
Proof.
  intros Hd. unfold add_key. destruct (mem ks k) eqn:E; [exact Hd|].
  now apply distinct_keys_snoc.
Qed.

Lemma distinct_keys_fold (names : list json) :
  forall ks, distinct_keys ks = true -> distinct_keys (fold_left add_key names ks) = true.
Proof.
  induction names as [|n names IH]; intros ks Hd; cbn; [exact Hd|].
  apply IH. now apply distinct_keys_add_key.
Qed.

Lemma length_add_key (ks : list json) (k : json) :
  (List.length (add_key ks k) <= S (List.length ks))%nat.
Proof.
  unfold add_key. destruct (mem ks k); [lia|]. rewrite length_app. cbn. lia.
Qed.

Lemma length_fold_add_key (names : list json) :
  forall ks,
    (List.length (fold_left add_key names ks) <= List.length ks + List.length names)%nat.
Proof.
  induction names as [|n names IH]; intros ks; cbn; [lia|].
  specialize (IH (add_key ks n)). pose proof (length_add_key ks n). lia.
Qed.

Lemma existsb_key_eqb_str (ks : list json) (s : string) :
  existsb (key_eqb (JStr s)) ks = mem ks (JStr s).
Proof.
  unfold mem. induction ks as [|k ks IH]; cbn [existsb]; [reflexivity|].
  now rewrite IH, key_eqb_str_sym.
Qed.

Lemma filter_str_absent (ks : list json) (s : string) :
  mem ks (JStr s) = false -> filter (fun k => key_eqb k (JStr s)) ks = [].
Proof.
  unfold mem. induction ks as [|k ks IH]; cbn; [reflexivity|].
  intros H. apply orb_false_iff in H. destruct H as [Hk Hks].
  rewrite Hk. now apply IH.
Qed.

Lemma filter_str_once (ks : list json) (s : string) :
  distinct_keys ks = true -> mem ks (JStr s) = true ->
  List.length (filter (fun k => key_eqb k (JStr s)) ks) = 1%nat.
Proof.
  induction ks as [|k ks IH]; cbn; [discriminate|].
  intros Hd Hm. apply andb_true_iff in Hd. destruct Hd as [Hk Hd].
  destruct (key_eqb k (JStr s)) eqn:E.
  - apply key_eqb_str in E. subst k.
    rewrite existsb_key_eqb_str in Hk. apply negb_true_iff in Hk.
    now rewrite (filter_str_absent ks s Hk).
  - cbn in Hm. now apply IH.
Qed.

Lemma stats_keys_dict_set (d : dict) (v : json) :
  distinct_keys (keys d) = true -> stats_keys (dict_set d (JStr "stats") v) = 1%nat.
Proof.
  intros Hd. unfold stats_keys. rewrite keys_dict_set. unfold add_key.
  destruct (mem (keys d) (JStr "stats")) eqn:E.
  - now apply filter_str_once.
  - rewrite filter_app, (filter_str_absent _ _ E). reflexivity.
Qed.

Lemma distinct_keys_app_mem (ks : list json) (n : json) (ns : list json) :
  distinct_keys (ks ++ n :: ns) = true -> mem ks n = false.
Proof.
  unfold mem. induction ks as [|k ks IH]; cbn; [reflexivity|].
  intros Hd. apply andb_true_iff in Hd. destruct Hd as [Hk Hd].
  apply negb_true_iff in Hk. rewrite existsb_app in Hk. cbn in Hk.
  apply orb_false_iff in Hk. destruct Hk as [_ Hk].
  apply orb_false_iff in Hk. destruct Hk as [Hk _].
  rewrite Hk. now apply IH.
Qed.

Lemma fold_add_key_distinct (names : list json) :
  forall ks, distinct_keys (ks ++ names) = true -> fold_left add_key names ks = ks ++ names.
Proof.
  induction names as [|n names IH]; intros ks Hd; cbn [fold_left].
  - now rewrite app_nil_r.
  - unfold add_key at 2. rewrite (distinct_keys_app_mem ks n names Hd).
    rewrite IH; rewrite <- app_assoc; [reflexivity|exact Hd].
Qed.

(** The keys the loop leaves are the keys it started with, followed by the
    resolved names of the cities it fetched, each added as an assignment
    adds it. *)
Lemma cities_loop_keys (w : world) (cities : list string) :
  forall d temps c d' temps' c' ev,
    cities_loop w cities d temps c = (Ok (d', temps'), c', ev) ->
    keys d' = fold_left add_key (successes w cities c) (keys d).
Proof.
  induction cities as [|city rest IH]; intros d temps c d' temps' c' ev Hrun.
  - cbn in Hrun. injection Hrun as <- _ _ _. reflexivity.
  - cbn [cities_loop successes] in *.
    unfold bind at 1 in Hrun. unfold print at 1, emit at 1 in Hrun.
    unfold bind at 1 in Hrun.
    destruct (get_city_coordinates w city c) as [[[[[[lat lon] name]|]|e] c1] ev1].
    + unfold bind at 1 in Hrun.
      destruct (get_current_weather_for_coordinates w lat lon c1) as [[[weather|e] c2] ev2];
        [|discriminate Hrun].
      destruct (truthy weather); cbn [negb] in Hrun.
      * unfold bind at 1 in Hrun. unfold lift at 1 in Hrun.
        destruct (py_getitem weather "temperature") as [temperature|e]; [|discriminate Hrun].
        unfold bind at 1 in Hrun. unfold lift at 1 in Hrun.
        destruct (py_getitem weather "windspeed") as [windspeed|e]; [|discriminate Hrun].
        unfold bind at 1 in Hrun. unfold lift at 1 in Hrun.
        destruct (py_getitem weather "winddirection") as [winddirection|e];
          [|discriminate Hrun].
        unfold bind at 1 in Hrun. unfold lift at 1 in Hrun.
        destruct (py_getitem weather "timestamp") as [timestamp|e]; [|discriminate Hrun].
        unfold bind at 1 in Hrun. unfold lift at 1 in Hrun.
        unfold dict_setitem in Hrun.
        destruct (hashable name); [|discriminate Hrun].
        unfold bind at 1 in Hrun. unfold lift at 1 in Hrun.
        unfold bind at 1 in Hrun. unfold sleep at 1, emit at 1 in Hrun.
        match type of Hrun with
        | context [cities_loop w rest ?d1 ?t1 c2] =>
            destruct (cities_loop w rest d1 t1 c2) as [[[[d2 t2]|e] c3] ev3] eqn:Erest
        end; [|discriminate Hrun].
        injection Hrun as <- _ _ _.
        rewrite (IH _ _ _ _ _ _ _ Erest), keys_dict_set. reflexivity.
      * unfold bind at 1 in Hrun. unfold print at 1, emit at 1 in Hrun.
        destruct (cities_loop w rest d temps c2) as [[[[d2 t2]|e] c3] ev3] eqn:Erest;
          [|discriminate Hrun].
        injection Hrun as <- _ _ _. apply (IH _ _ _ _ _ _ _ Erest).
    + unfold bind at 1 in Hrun. unfold print at 1, emit at 1 in Hrun.
      destruct (cities_loop w rest d temps c1) as [[[[d2 t2]|e] c3] ev3] eqn:Erest;
        [|discriminate Hrun].
      injection Hrun as <- _ _ _. apply (IH _ _ _ _ _ _ _ Erest).
    + discriminate Hrun.
Qed.

Lemma distinct_keys_app_l (ks ks' : list json) :
  distinct_keys (ks ++ ks') = true -> distinct_keys ks = true.
Proof.
  induction ks as [|k ks IH]; cbn; [reflexivity|].
  intros Hd. apply andb_true_iff in Hd. destruct Hd as [Hk Hd].
  apply negb_true_iff in Hk. rewrite existsb_app in Hk.
  apply orb_false_iff in Hk. destruct Hk as [Hk _].
  rewrite Hk. cbn. now apply IH.
Qed.

(** The keys of what the orchestrator returns, when it returns: those the
    loop built, with ["stats"] assigned last. *)
Lemma process_weather_for_cities_returns (w : world) (cities : list string)
    (output_format : string) (output_file : option string) (c c' : nat)
    (m : dict) (ev : list event) :
  process_weather_for_cities w cities output_format output_file c = (Ok m, c', ev) ->
  keys m = add_key (fold_left add_key (successes w cities c) []) (JStr "stats").
Proof.
  intros Hrun. unfold process_weather_for_cities in Hrun. unfold bind at 1 in Hrun.
  destruct (cities_loop w cities [] [] c) as [[[[d temps]|e] c1] ev1] eqn:Eloop;
    [|discriminate Hrun].
  cbn [fst snd] in Hrun. unfold bind at 1, lift at 1 in Hrun.
  destruct (compute_weather_stats temps) as [stats|e]; [|discriminate Hrun].
  unfold bind at 1, lift at 1 in Hrun. cbn [dict_setitem hashable] in Hrun.
  unfold bind at 1 in Hrun.
  match type of Hrun with
  | context [match ?run c1 with _ => _ end] =>
      destruct (run c1) as [[[u|e] c2] ev2]; [|discriminate Hrun]
  end.
  unfold bind at 1 in Hrun.
  destruct (print_weather_summary (dict_set d (JStr "stats") stats) c2)
    as [[[u'|e] c3] ev3]; [|discriminate Hrun].
  cbn in Hrun. injection Hrun as <- _ _.
  rewrite keys_dict_set. f_equal. apply (cities_loop_keys _ _ _ _ _ _ _ _ _ Eloop).
Qed.

(** C2, as amended: the mapping the orchestrator returns has exactly one
    ["stats"] key and pairwise different keys; its other keys are the
    resolved names of the cities that were resolved and fetched, so it has at
    most one key more than there are such cities, and exactly one more (the
    names in input order, then ["stats"]) when those names are pairwise
    different and none is ["stats"]. *)
Theorem process_weather_for_cities_keys (w : world) (cities : list string)
    (output_format : string) (output_file : option string) (c c' : nat)
    (m : dict) (ev : list event) :
  process_weather_for_cities w cities output_format output_file c = (Ok m, c', ev) ->
  stats_keys m = 1%nat /\
  distinct_keys (keys m) = true /\
  (forall k, mem (keys m) k = mem (successes w cities c) k || key_eqb (JStr "stats") k) /\
  (List.length m <= 1 + List.length (successes w cities c))%nat /\
  (distinct_keys (successes w cities c ++ [JStr "stats"]) = true ->
   keys m = successes w cities c ++ [JStr "stats"] /\
   List.length m = (1 + List.length (successes w cities c))%nat).
Proof.
  intros Hrun.
  pose proof (process_weather_for_cities_returns _ _ _ _ _ _ _ _ Hrun) as Hkeys.
  set (names := successes w cities c) in *.
  assert (Hd : distinct_keys (fold_left add_key names []) = true)
    by (now apply distinct_keys_fold).
  split; [|split; [|split; [|split]]].
  - unfold stats_keys. rewrite Hkeys. unfold add_key at 1.
    destruct (mem (fold_left add_key names []) (JStr "stats")) eqn:E.
    + now apply filter_str_once.
    + rewrite filter_app, (filter_str_absent _ _ E). reflexivity.
  - rewrite Hkeys. now apply distinct_keys_add_key.
  - intros k. rewrite Hkeys, mem_add_key, mem_fold_add_key. reflexivity.
  - replace (List.length m) with (List.length (keys m)) by apply length_map.
    rewrite Hkeys.
    pose proof (length_add_key (fold_left add_key names []) (JStr "stats")).
    pose proof (length_fold_add_key names []). cbn [List.length] in *. lia.
  - intros Hdist.
    assert (Hk : keys m = names ++ [JStr "stats"]).
    { rewrite Hkeys.
      rewrite (fold_add_key_distinct names []) by
        (cbn [app]; now apply distinct_keys_app_l with [JStr "stats"]).
      cbn [app]. unfold add_key.
      now rewrite (distinct_keys_app_mem names (JStr "stats") [] Hdist). }
    split; [exact Hk|].
    replace (List.length m) with (List.length (keys m)) by apply length_map.
    rewrite Hk, length_app. cbn. lia.
Qed.

Lemma process_weather_for_cities_keys_witness :
  stats_keys demo_result = 1%nat /\
  distinct_keys (keys demo_result) = true /\
  (forall k,
     mem (keys demo_result) k =
       mem (successes demo_world ["Paris"; "Nowhereville"; "Tokyo"] 0%nat) k
       || key_eqb (JStr "stats") k) /\
  (List.length demo_result
   <= 1 + List.length (successes demo_world ["Paris"; "Nowhereville"; "Tokyo"] 0%nat))%nat /\
  (distinct_keys (successes demo_world ["Paris"; "Nowhereville"; "Tokyo"] 0%nat
                  ++ [JStr "stats"]) = true ->
   keys demo_result =
     successes demo_world ["Paris"; "Nowhereville"; "Tokyo"] 0%nat ++ [JStr "stats"] /\
   List.length demo_result =
     (1 + List.length (successes demo_world ["Paris"; "Nowhereville"; "Tokyo"] 0%nat))%nat).
Proof.
  apply (process_weather_for_cities_keys demo_world ["Paris"; "Nowhereville"; "Tokyo"]
           "json" None 0%nat (count_of demo_run) demo_result (events_of demo_run)).
  vm_compute. reflexivity.
Defined.

(** The scenario's result: entries for Paris and Tokyo and the statistics of
    their two temperatures. *)
Example demo_result_keys :
  keys demo_result = [JStr "Paris"; JStr "Tokyo"; JStr "stats"] /\
  successes demo_world ["Paris"; "Nowhereville"; "Tokyo"] 0%nat = [JStr "Paris"; JStr "Tokyo"] /\
  field (dict_get demo_result (JStr "stats")) "min" = JNum 10 /\
  field (dict_get demo_result (JStr "stats")) "max" = JNum 20 /\
  field (dict_get demo_result (JStr "stats")) "average" = JNum 15%float.
Proof. repeat split. Qed.

(** C2, as stated, fails: two input cities that resolve to the same name are
    both resolved and fetched, and share one entry. *)
Lemma process_weather_for_cities_duplicate_city :
  exists m,
    result_of (process_weather_for_cities demo_world ["Paris"; "Paris"] "json" None 0%nat)
      = Ok m /\
    successes demo_world ["Paris"; "Paris"] 0%nat = [JStr "Paris"; JStr "Paris"] /\
    keys m = [JStr "Paris"; JStr "stats"] /\
    List.length m <> (1 + List.length (successes demo_world ["Paris"; "Paris"] 0%nat))%nat.
Proof.
  eexists. split; [vm_compute; reflexivity|].
  split; [reflexivity|]. split; [reflexivity|]. cbn. discriminate.
Qed.

(** ** The pause between cities *)

(** A city the geocoder does not resolve is skipped by [continue]: the next
    city's events follow at once. *)
Lemma cities_loop_skip_geocoding (w : world) (city : string) (rest : list string)
    (d : dict) (temps : list json) (c c1 : nat) (ev1 : list event) :
  get_city_coordinates w city c = (Ok None, c1, ev1) ->
  events_of (cities_loop w (city :: rest) d temps c) =
    EPrint Stdout [Lit "[info] Fetching data for "; Lit city; Lit "..."]
    :: ev1
    ++ EPrint Stdout [Lit "[warn] Skipping "; Lit city; Lit " due to geocoding issues."]
    :: events_of (cities_loop w rest d temps c1).
Proof.
  intros Hgeo. cbn [cities_loop]. unfold bind, print, emit. rewrite Hgeo.
  destruct (cities_loop w rest d temps c1) as [[r c2] ev2]. reflexivity.
Qed.

Lemma city_pauses_app (ev1 ev2 : list event) :
  city_pauses (ev1 ++ ev2) = (city_pauses ev1 + city_pauses ev2)%nat.
Proof. unfold city_pauses. now rewrite filter_app, length_app. Qed.

Lemma city_pauses_print (st : stream) (msg : list frag) (ev : list event) :
  city_pauses (EPrint st msg :: ev) = city_pauses ev.
Proof. reflexivity. Qed.

Lemma city_pauses_pause (ev : list event) :
  city_pauses (ESleep (1 # 2) :: ev) = S (city_pauses ev).
Proof. reflexivity. Qed.

Lemma city_pauses_free {A} (m : M A) (c : nat) :
  free_of is_city_pause m -> city_pauses (events_of (m c)) = 0%nat.
Proof. intros Hm. unfold city_pauses. now rewrite (Hm c). Qed.

(** In a run of the loop that returns, the 0.5-second pauses are as many as
    the cities that were resolved and fetched: every other city is left
    without one. *)
Lemma cities_loop_pauses (w : world) (cities : list string) :
  forall d temps c d' temps' c' ev,
    cities_loop w cities d temps c = (Ok (d', temps'), c', ev) ->
    city_pauses ev = List.length (successes w cities c).
Proof.
  induction cities as [|city rest IH]; intros d temps c d' temps' c' ev Hrun.
  - cbn in Hrun. injection Hrun as _ _ _ <-. reflexivity.
  - cbn [cities_loop successes] in *.
    unfold bind at 1 in Hrun. unfold print at 1, emit at 1 in Hrun.
    unfold bind at 1 in Hrun.
    pose proof (city_pauses_free _ c
                  (free_get_city_coordinates is_city_pause
                     ltac:(reflexivity) ltac:(reflexivity) ltac:(reflexivity) w city))
      as Hgeo.
    destruct (get_city_coordinates w city c) as [[[[[[lat lon] name]|]|e] c1] ev1].
    + unfold bind at 1 in Hrun.
      pose proof (city_pauses_free _ c1
                    (free_get_current_weather is_city_pause
                       ltac:(reflexivity) ltac:(reflexivity) ltac:(reflexivity) w lat lon))
        as Hwx.
      destruct (get_current_weather_for_coordinates w lat lon c1) as [[[weather|e] c2] ev2];
        [|discriminate Hrun].
      unfold events_of in Hgeo, Hwx. cbn [snd] in Hgeo, Hwx.
      destruct (truthy weather); cbn [negb] in Hrun.
      * unfold bind at 1 in Hrun. unfold lift at 1 in Hrun.
        destruct (py_getitem weather "temperature") as [temperature|e]; [|discriminate Hrun].
        unfold bind at 1 in Hrun. unfold lift at 1 in Hrun.
        destruct (py_getitem weather "windspeed") as [windspeed|e]; [|discriminate Hrun].
        unfold bind at 1 in Hrun. unfold lift at 1 in Hrun.
        destruct (py_getitem weather "winddirection") as [winddirection|e];
          [|discriminate Hrun].
        unfold bind at 1 in Hrun. unfold lift at 1 in Hrun.
        destruct (py_getitem weather "timestamp") as [timestamp|e]; [|discriminate Hrun].
        unfold bind at 1 in Hrun. unfold lift at 1 in Hrun.
        unfold dict_setitem in Hrun.
        destruct (hashable name); [|discriminate Hrun].
        unfold bind at 1 in Hrun. unfold lift at 1 in Hrun.
        unfold bind at 1 in Hrun. unfold sleep at 1, emit at 1 in Hrun.
        match type of Hrun with
        | context [cities_loop w rest ?d1 ?t1 c2] =>
            destruct (cities_loop w rest d1 t1 c2) as [[[[d2 t2]|e] c3] ev3] eqn:Erest
        end; [|discriminate Hrun].
        injection Hrun as _ _ _ <-.
        rewrite city_pauses_print, !city_pauses_app, city_pauses_pause, Hgeo, Hwx,
          (IH _ _ _ _ _ _ _ Erest). reflexivity.
      * unfold bind at 1 in Hrun. unfold print at 1, emit at 1 in Hrun.
        destruct (cities_loop w rest d temps c2) as [[[[d2 t2]|e] c3] ev3] eqn:Erest;
          [|discriminate Hrun].
        injection Hrun as _ _ _ <-.
        rewrite city_pauses_print, !city_pauses_app, city_pauses_print, Hgeo, Hwx,
          (IH _ _ _ _ _ _ _ Erest). reflexivity.
    + unfold events_of in Hgeo. cbn [snd] in Hgeo.
      unfold bind at 1 in Hrun. unfold print at 1, emit at 1 in Hrun.
      destruct (cities_loop w rest d temps c1) as [[[[d2 t2]|e] c3] ev3] eqn:Erest;
        [|discriminate Hrun].
      injection Hrun as _ _ _ <-.
      rewrite city_pauses_print, !city_pauses_app, city_pauses_print, Hgeo,
        (IH _ _ _ _ _ _ _ Erest). reflexivity.
    + discriminate Hrun.
Qed.

(** C4: the 0.5-second pause is missing after a city that fails.  Atlantis
    has no geocoding result and Paris is fetched: the request for Paris
    follows the request for Atlantis with no pause between them, and the
    only pause comes after Paris. *)
Theorem no_pause_after_skipped_city :
  result_of (get_city_coordinates demo_world "Atlantis" 0%nat) = Ok None /\
  wire (events_of (cities_loop demo_world ["Atlantis"; "Paris"] [] [] 0%nat)) =
    [EGet GEOCODE_API_URL (geocode_params "Atlantis") REQUEST_TIMEOUT_SECONDS;
     EGet GEOCODE_API_URL (geocode_params "Paris") REQUEST_TIMEOUT_SECONDS;
     EGet WEATHER_API_URL (weather_params (JNum 48) (JNum 2)) REQUEST_TIMEOUT_SECONDS;
     ESleep (1 # 2)].
Proof. split; reflexivity. Qed.

(** * Further properties of the code *)

(** ** The fetcher outside the claimed cases *)

(** X1: with an attempt bound of zero or less the loop body never runs: no
    request is issued, nothing is printed and the result is absence. *)
Theorem fetch_data_with_retries_no_attempts (w : world) (url : string) (p : params)
    (n : Z) (c : nat) :
  n <= 0 ->
  fetch_data_with_retries w url p n c = (Ok JNull, c, []).
Proof.
  intros Hn. unfold fetch_data_with_retries, py_range.
  replace (Z.to_nat (n + 1 - 1)) with 0%nat by lia. reflexivity.
Qed.

Lemma fetch_data_with_retries_no_attempts_witness :
  fetch_data_with_retries demo_world GEOCODE_API_URL (geocode_params "Paris") 0 5%nat =
    (Ok JNull, 5%nat, []).
Proof.
  apply (fetch_data_with_retries_no_attempts demo_world GEOCODE_API_URL
           (geocode_params "Paris") 0 5%nat).
  lia.
Defined.

Lemma fetch_loop_wire (w : world) (url : string) (p : params) (retries : Z) :
  forall (m i c : nat),
    Z.of_nat (i + S m) = retries ->
    exists k, (k <= m)%nat /\
      wire (events_of (fetch_loop w url p retries (attempts_from i (S m)) c)) =
        retry_wire url p k.
Proof.
  induction m as [|m IH]; intros i c Hlast;
    rewrite attempts_from_S, fetch_loop_step;
    destruct (net w c url p) as [body|err]; try (exists 0%nat; split; [lia|reflexivity]).
  - replace (1 + Z.of_nat i <? retries) with false by (symmetry; apply Z.ltb_ge; lia).
    exists 0%nat. split; [lia|reflexivity].
  - replace (1 + Z.of_nat i <? retries) with true by (symmetry; apply Z.ltb_lt; lia).
    destruct (IH (S i) (S c) ltac:(lia)) as [k [Hk Hwire]].
    destruct (fetch_loop w url p retries (attempts_from (S i) (S m)) (S c)) as [[r c'] ev].
    exists (S k). split; [lia|].
    unfold events_of in *. cbn [snd] in *. rewrite retry_wire_S, <- Hwire. reflexivity.
Qed.

(** X2: whatever the endpoint answers, a call with bound n >= 1 repeats one
    and the same request (same url, same parameters, the 10-second timeout)
    k+1 <= n times with a 1.5-second pause between consecutive attempts and
    none before the first or after the last; it does nothing else to the
    outside. *)
Theorem fetch_data_with_retries_wire (w : world) (url : string) (p : params)
    (n : Z) (c : nat) :
  1 <= n ->
  exists k, (k < Z.to_nat n)%nat /\
    wire (events_of (fetch_data_with_retries w url p n c)) = retry_wire url p k.
Proof.
  intros Hn. unfold fetch_data_with_retries. rewrite py_range_attempts.
  destruct (Z.to_nat n) as [|m] eqn:Em; [lia|].
  destruct (fetch_loop_wire w url p n m 0 c ltac:(lia)) as [k [Hk Hwire]].
  exists k. split; [lia|exact Hwire].
Qed.

Lemma fetch_data_with_retries_wire_witness :
  exists k, (k < Z.to_nat RETRY_ATTEMPTS)%nat /\
    wire (events_of (fetch_data_with_retries demo_world GEOCODE_API_URL
                       (geocode_params "Flaky") RETRY_ATTEMPTS 0%nat)) =
      retry_wire GEOCODE_API_URL (geocode_params "Flaky") k.
Proof.
  apply (fetch_data_with_retries_wire demo_world GEOCODE_API_URL
           (geocode_params "Flaky") RETRY_ATTEMPTS 0%nat).
  unfold RETRY_ATTEMPTS. lia.
Defined.

(** ** The two lookups *)

Ltac pure_step :=
  first
    [ apply free_ret | apply free_raise | apply free_lift
    | apply free_print; solve [intros; reflexivity]
    | apply free_emit; reflexivity
    | apply free_bind; [|intros ?] ].

Ltac pure_branch :=
  match goal with
  | |- free_of _ (if ?b then _ else _) => destruct b
  | |- free_of _ (match ?x with _ => _ end) => destruct x
  end.

Ltac pure_auto := repeat first [pure_step | pure_branch].

Lemma requests_wire (ev : list event) : requests (wire ev) = requests ev.
Proof.
  unfold requests, wire. induction ev as [|e ev IH]; [reflexivity|].
  destruct e; cbn; now rewrite ?IH.
Qed.

Lemma requests_retry_wire (url : string) (p : params) (k : nat) :
  requests (retry_wire url p k) = repeat (EGet url p REQUEST_TIMEOUT_SECONDS) (S k).
Proof.
  induction k as [|k IH]; [reflexivity|].
  rewrite retry_wire_S. cbn [requests filter is_get]. fold (requests (retry_wire url p k)).
  now rewrite IH.
Qed.

Lemma requests_bind_free {A B} (m : M A) (k : A -> M B) (c : nat) :
  (forall a, free_of is_get (k a)) ->
  requests (events_of (bind m k c)) = requests (events_of (m c)).
Proof.
  intros Hk. unfold bind. destruct (m c) as [[[a|e] c1] ev1]; [|reflexivity].
  specialize (Hk a c1). destruct (k a c1) as [[r c2] ev2].
  unfold requests, events_of in *. cbn [snd] in *.
  now rewrite filter_app, Hk, app_nil_r.
Qed.

(** X3: the geocoder sends between one and three requests, every one of them
    to the geocoding endpoint with the parameters name = the city as given
    and count = 1, and the weather lookup between one and three, every one
    to the weather endpoint with the two coordinates and
    current_weather = true. *)
Theorem lookup_requests (w : world) (city_name : string) (lat lon : json) (c : nat) :
  (exists k, (1 <= k <= 3)%nat /\
     requests (events_of (get_city_coordinates w city_name c)) =
       repeat (EGet GEOCODE_API_URL
                 [("name", JStr city_name); ("count", JNum 1)] 10) k) /\
  (exists k, (1 <= k <= 3)%nat /\
     requests (events_of (get_current_weather_for_coordinates w lat lon c)) =
       repeat (EGet WEATHER_API_URL
                 [("latitude", lat); ("longitude", lon); ("current_weather", JBool true)]
                 10) k).
Proof.
  split.
  - destruct (fetch_data_with_retries_wire w GEOCODE_API_URL (geocode_params city_name)
                RETRY_ATTEMPTS c ltac:(unfold RETRY_ATTEMPTS; lia)) as [k [Hk Hwire]].
    exists (S k). split; [cbn in Hk; lia|].
    unfold get_city_coordinates. rewrite requests_bind_free by (intros a; pure_auto).
    rewrite <- requests_wire. fold (geocode_params city_name).
    rewrite Hwire. apply requests_retry_wire.
  - destruct (fetch_data_with_retries_wire w WEATHER_API_URL (weather_params lat lon)
                RETRY_ATTEMPTS c ltac:(unfold RETRY_ATTEMPTS; lia)) as [k [Hk Hwire]].
    exists (S k). split; [cbn in Hk; lia|].
    unfold get_current_weather_for_coordinates.
    rewrite requests_bind_free by (intros a; pure_auto).
    rewrite <- requests_wire. fold (weather_params lat lon).
    rewrite Hwire. apply requests_retry_wire.
Qed.

Lemma get_city_coordinates_name (w : world) (city_name : string) (c : nat)
    (lat lon name : json) :
  result_of (get_city_coordinates w city_name c) = Ok (Some (lat, lon, name)) ->
  truthy name = true \/ name = JStr city_name.
Proof.
  unfold get_city_coordinates, bind, result_of.
  destruct (fetch_data_with_retries w GEOCODE_API_URL _ RETRY_ATTEMPTS c)
    as [[[body|e] c1] ev1]; [|discriminate].
  destruct (truthy body); cbn [negb]; [|discriminate].
  unfold lift at 1. destruct (py_get body "results") as [results|e]; [|discriminate].
  destruct (truthy results); cbn [negb]; [|discriminate].
  unfold lift at 1. destruct (py_index0 results) as [city_info|e]; [|discriminate].
  unfold lift. destruct (py_get city_info "latitude") as [la|e]; [|discriminate].
  destruct (py_get city_info "longitude") as [lo|e]; [|discriminate].
  destruct (py_get city_info "name") as [nm|e]; [|discriminate].
  destruct (is_none la) eqn:Ela; [discriminate|].
  destruct (is_none lo) eqn:Elo; [discriminate|].
  cbn. intros H. injection H as _ _ <-.
  destruct (truthy nm) eqn:Enm; [now left|now right].
Qed.

(** X4: whatever the endpoint answers, coordinates the geocoder returns are
    never [None], and the name it returns is truthy or is the city name it
    was given. *)
Theorem get_city_coordinates_some (w : world) (city_name : string) (c : nat)
    (lat lon name : json) :
  result_of (get_city_coordinates w city_name c) = Ok (Some (lat, lon, name)) ->
  is_none lat = false /\ is_none lon = false /\
  (truthy name = true \/ name = JStr city_name).
Proof.
  unfold get_city_coordinates, bind, result_of.
  destruct (fetch_data_with_retries w GEOCODE_API_URL _ RETRY_ATTEMPTS c)
    as [[[body|e] c1] ev1]; [|discriminate].
  destruct (truthy body); cbn [negb]; [|discriminate].
  unfold lift at 1. destruct (py_get body "results") as [results|e]; [|discriminate].
  destruct (truthy results); cbn [negb]; [|discriminate].
  unfold lift at 1. destruct (py_index0 results) as [city_info|e]; [|discriminate].
  unfold lift. destruct (py_get city_info "latitude") as [la|e]; [|discriminate].
  destruct (py_get city_info "longitude") as [lo|e]; [|discriminate].
  destruct (py_get city_info "name") as [nm|e]; [|discriminate].
  destruct (is_none la) eqn:Ela; [discriminate|].
  destruct (is_none lo) eqn:Elo; [discriminate|].
  cbn. intros H. injection H as <- <- <-.
  split; [exact Ela|split; [exact Elo|]].
  destruct (truthy nm) eqn:Enm; [now left|now right].
Qed.

Lemma get_city_coordinates_some_witness :
  is_none (JNum 48) = false /\ is_none (JNum 2) = false /\
  (truthy (JStr "Paris") = true \/ JStr "Paris" = JStr "Paris").
Proof.
  apply (get_city_coordinates_some demo_world "Paris" 0%nat (JNum 48) (JNum 2) (JStr "Paris")).
  reflexivity.
Defined.

(** X5: whatever the endpoint answers, what the weather lookup returns is
    [None] or a mapping of exactly the five keys temperature, windspeed,
    winddirection, weathercode and timestamp, each holding the value the
    response's [current_weather] section has for it ([time] for timestamp)
    or [None] when the section has none. *)
Theorem get_current_weather_reading (w : world) (lat lon : json) (c c' : nat)
    (body : json) (ev : list event) (weather : json) :
  fetch_data_with_retries w WEATHER_API_URL (weather_params lat lon) RETRY_ATTEMPTS c =
    (Ok body, c', ev) ->
  result_of (get_current_weather_for_coordinates w lat lon c) = Ok weather ->
  weather = JNull \/ weather = reading_of (field body "current_weather").
Proof.
  intros Hfetch. unfold get_current_weather_for_coordinates, bind, result_of.
  fold (weather_params lat lon). rewrite Hfetch.
  destruct (truthy body); cbn [negb]; [|cbn; intros H; injection H as <-; now left].
  destruct body as [| | | | |fields]; try discriminate.
  cbn [lift py_get field].
  destruct (truthy (assoc_get fields "current_weather"));
    cbn [negb]; [|cbn; intros H; injection H as <-; now left].
  destruct (assoc_get fields "current_weather") as [| | | | |section]; try discriminate.
  cbn. intros H. injection H as <-. now right.
Qed.

Lemma get_current_weather_reading_witness :
  reading_of (field (weather_response 10) "current_weather") = JNull \/
  reading_of (field (weather_response 10) "current_weather") =
    reading_of (field (weather_response 10) "current_weather").
Proof.
  apply (get_current_weather_reading demo_world (JNum 48) (JNum 2) 0%nat 1%nat
           (weather_response 10)
           [EGet WEATHER_API_URL (weather_params (JNum 48) (JNum 2)) REQUEST_TIMEOUT_SECONDS]).
  - reflexivity.
  - reflexivity.
Defined.

(** ** What the loop hands to the output stage *)

Lemma py_getitem_field (v : json) (key : string) (x : json) :
  py_getitem v key = Ok x -> x = field v key.
Proof.
  destruct v as [| | | | |fields]; try discriminate. cbn.
  destruct (assoc_mem fields key); [|discriminate]. now intros H; injection H as <-.
Qed.

Lemma key_eqb_refl (k : json) : key_ok k = true -> key_eqb k k = true.
Proof.
  destruct k as [|b|n|s| |]; try discriminate; intros _; cbn [key_eqb num_val].
  - apply xval_same_refl.
  - apply xval_same_refl.
  - apply String.eqb_refl.
Qed.

Lemma key_ok_name (name : json) (city_name : string) :
  hashable name = true -> truthy name = true \/ name = JStr city_name ->
  key_ok name = true.
Proof.
  intros Hh [Ht| ->]; [|reflexivity].
  destruct name; try reflexivity; discriminate.
Qed.

Lemma dict_get_set_same (d : dict) (k v : json) :
  key_ok k = true -> dict_get (dict_set d k v) k = v.
Proof.
  intros Hk. induction d as [|[k0 v0] d IH]; cbn.
  - now rewrite key_eqb_refl.
  - destruct (key_eqb k0 k) eqn:E; cbn; now rewrite E.
Qed.

Lemma dict_set_printable (d : dict) (k v : json) :
  forallb printable d = true -> key_ok k = true -> is_obj v = true ->
  forallb printable (dict_set d k v) = true.
Proof.
  intros Hd Hk Hv. induction d as [|[k0 v0] d IH]; cbn.
  - unfold printable. cbn. now rewrite Hk, Hv.
  - cbn in Hd. apply andb_true_iff in Hd. destruct Hd as [H0 Hd].
    destruct (key_eqb k0 k); cbn.
    + unfold printable in *. cbn in *. apply andb_true_iff in H0.
      destruct H0 as [Hk0 _]. now rewrite Hk0, Hv, Hd.
    + now rewrite H0, IH.
Qed.

(** The loop keeps every entry printable and appends to the temperatures
    exactly the ones it collects. *)
Lemma cities_loop_inv (w : world) (cities : list string) :
  forall d temps c d' temps' c' ev,
    cities_loop w cities d temps c = (Ok (d', temps'), c', ev) ->
    temps' = temps ++ collected w cities c /\
    (forallb printable d = true -> forallb printable d' = true).
Proof.
  induction cities as [|city rest IH]; intros d temps c d' temps' c' ev Hrun.
  - cbn in Hrun. injection Hrun as <- <- _ _. cbn. now rewrite app_nil_r.
  - cbn [cities_loop collected] in *.
    unfold bind at 1 in Hrun. unfold print at 1, emit at 1 in Hrun.
    unfold bind at 1 in Hrun.
    pose proof (get_city_coordinates_name w city c) as Hname.
    destruct (get_city_coordinates w city c) as [[[[[[lat lon] name]|]|e] c1] ev1].
    + specialize (Hname lat lon name eq_refl).
      unfold bind at 1 in Hrun.
      destruct (get_current_weather_for_coordinates w lat lon c1) as [[[weather|e] c2] ev2];
        [|discriminate Hrun].
      destruct (truthy weather); cbn [negb] in Hrun.
      * unfold bind at 1 in Hrun. unfold lift at 1 in Hrun.
        destruct (py_getitem weather "temperature") as [temperature|e] eqn:Etemp;
          [|discriminate Hrun].
        unfold bind at 1 in Hrun. unfold lift at 1 in Hrun.
        destruct (py_getitem weather "windspeed") as [windspeed|e]; [|discriminate Hrun].
        unfold bind at 1 in Hrun. unfold lift at 1 in Hrun.
        destruct (py_getitem weather "winddirection") as [winddirection|e];
          [|discriminate Hrun].
        unfold bind at 1 in Hrun. unfold lift at 1 in Hrun.
        destruct (py_getitem weather "timestamp") as [timestamp|e]; [|discriminate Hrun].
        unfold bind at 1 in Hrun. unfold lift at 1 in Hrun.
        unfold dict_setitem in Hrun.
        destruct (hashable name) eqn:Ehash; [|discriminate Hrun].
        unfold bind at 1 in Hrun. unfold lift at 1 in Hrun.
        unfold bind at 1 in Hrun. unfold sleep at 1, emit at 1 in Hrun.
        apply py_getitem_field in Etemp. subst temperature.
        match type of Hrun with
        | context [cities_loop w rest ?d1 ?t1 c2] =>
            destruct (cities_loop w rest d1 t1 c2) as [[[[d2 t2]|e] c3] ev3] eqn:Erest
        end; [|discriminate Hrun].
        injection Hrun as <- <- _ _.
        destruct (IH _ _ _ _ _ _ _ Erest) as [Htemps Hprint]. split.
        -- rewrite Htemps.
           destruct (is_none (field weather "temperature")); [reflexivity|].
           now rewrite <- app_assoc.
        -- intros Hd. apply Hprint. apply dict_set_printable; [exact Hd| |reflexivity].
           now apply key_ok_name with city.
      * unfold bind at 1 in Hrun. unfold print at 1, emit at 1 in Hrun.
        destruct (cities_loop w rest d temps c2) as [[[[d2 t2]|e] c3] ev3] eqn:Erest;
          [|discriminate Hrun].
        injection Hrun as <- <- _ _. apply (IH _ _ _ _ _ _ _ Erest).
    + unfold bind at 1 in Hrun. unfold print at 1, emit at 1 in Hrun.
      destruct (cities_loop w rest d temps c1) as [[[[d2 t2]|e] c3] ev3] eqn:Erest;
        [|discriminate Hrun].
      injection Hrun as <- <- _ _. apply (IH _ _ _ _ _ _ _ Erest).
    + discriminate Hrun.
Qed.









(** The scenario run: both temperatures are ints, the average is a float,
    and the mapping is written to the given path. *)
Example process_weather_for_cities_json_demo :
  compute_weather_stats demo_loop_temperatures =
    Ok (JObj [("min", JNum 10); ("max", JNum 20); ("average", JNum 15%float)]) /\
  writes (events_of (process_weather_for_cities demo_world
                       ["Paris"; "Nowhereville"; "Tokyo"] "json" (Some "out.json") 0%nat)) =
    [EWrite "out.json"
       (dict_set demo_loop_dict (JStr "stats")
          (JObj [("min", JNum 10); ("max", JNum 20); ("average", JNum 15%float)]))].
Proof. split; vm_compute; reflexivity. Qed.

(** What a returning run went through. *)
Lemma process_returns_inv (w : world) (cities : list string) (output_format : string)
    (output_file : option string) (c c' : nat) (m : dict) (ev : list event) :
  process_weather_for_cities w cities output_format output_file c = (Ok m, c', ev) ->
  exists d temps c1 ev1 stats,
    cities_loop w cities [] [] c = (Ok (d, temps), c1, ev1) /\
    compute_weather_stats temps = Ok stats /\
    m = dict_set d (JStr "stats") stats.
Proof.
  intros Hrun. unfold process_weather_for_cities in Hrun. unfold bind at 1 in Hrun.
  destruct (cities_loop w cities [] [] c) as [[[[d temps]|e] c1] ev1] eqn:Eloop;
    [|discriminate Hrun].
  cbn [fst snd] in Hrun. unfold bind at 1, lift at 1 in Hrun.
  destruct (compute_weather_stats temps) as [stats|e] eqn:Estats; [|discriminate Hrun].
  unfold bind at 1, lift at 1 in Hrun. cbn [dict_setitem hashable] in Hrun.
  unfold bind at 1 in Hrun.
  match type of Hrun with
  | context [match ?run c1 with _ => _ end] =>
      destruct (run c1) as [[[u|e] c2] ev2]; [|discriminate Hrun]
  end.
  unfold bind at 1 in Hrun.
  destruct (print_weather_summary (dict_set d (JStr "stats") stats) c2)
    as [[[u'|e] c3] ev3]; [|discriminate Hrun].
  cbn in Hrun. injection Hrun as <- _ _.
  exists d, temps, c1, ev1, stats. repeat split; assumption.
Qed.

(** X9: whenever the orchestrator returns, the aggregator has returned on
    the temperatures of all cities that were resolved and fetched, in input
    order, the [None] ones left out, and what it returned is the ["stats"]
    entry of the mapping, whatever names the cities resolved to (a city that
    resolved to "stats" loses its entry to the statistics, and cities that
    share an entry each count). *)
Theorem process_weather_for_cities_stats (w : world) (cities : list string)
    (output_format : string) (output_file : option string) (c c' : nat)
    (m : dict) (ev : list event) :
  process_weather_for_cities w cities output_format output_file c = (Ok m, c', ev) ->
  compute_weather_stats (collected w cities c) = Ok (dict_get m (JStr "stats")).
Proof.
  intros Hrun.
  destruct (process_returns_inv _ _ _ _ _ _ _ _ Hrun)
    as [d [temps [c1 [ev1 [stats [Hloop [Hcomp ->]]]]]]].
  destruct (cities_loop_inv _ _ _ _ _ _ _ _ _ Hloop) as [Htemps _].
  cbn [app] in Htemps. subst temps.
  rewrite dict_get_set_same by reflexivity. exact Hcomp.
Qed.

Lemma process_weather_for_cities_stats_witness :
  compute_weather_stats (collected demo_world ["Paris"; "Nowhereville"; "Tokyo"] 0%nat) =
    Ok (dict_get demo_result (JStr "stats")).
Proof.
  apply (process_weather_for_cities_stats demo_world ["Paris"; "Nowhereville"; "Tokyo"]
           "json" None 0%nat (count_of demo_run) demo_result (events_of demo_run)).
  vm_compute. reflexivity.
Defined.

(** Three fetched cities of which two resolve to Paris: two city entries,
    and statistics over three temperatures. *)
Example stats_count_shared_entries :
  exists m,
    result_of (process_weather_for_cities demo_world ["Paris"; "Tokyo"; "Paris"]
                 "json" None 0%nat) = Ok m /\
    keys m = [JStr "Paris"; JStr "Tokyo"; JStr "stats"] /\
    collected demo_world ["Paris"; "Tokyo"; "Paris"] 0%nat = [JNum 10; JNum 20; JNum 10] /\
    compute_weather_stats [JNum 10; JNum 20; JNum 10] = Ok (dict_get m (JStr "stats")) /\
    field (dict_get m (JStr "stats")) "average" = JNum 13.333333333333334%float.
Proof.
  eexists. split; [vm_compute; reflexivity|]. repeat split; vm_compute; reflexivity.
Qed.

(** ** Failing runs leave no file *)


(** ** How many requests a run makes *)

Lemma at_most_free {A} (m : M A) : free_of is_get m -> at_most 0 m.
Proof. intros Hm c. unfold gets. now rewrite (Hm c). Qed.

Lemma at_most_weaken {A} (a b : nat) (m : M A) :
  (a <= b)%nat -> at_most a m -> at_most b m.
Proof. intros Hab Hm c. specialize (Hm c). lia. Qed.

Lemma at_most_bind {A B} (a b : nat) (m : M A) (k : A -> M B) :
  at_most a m -> (forall x, at_most b (k x)) -> at_most (a + b) (bind m k).
Proof.
  intros Hm Hk c. unfold bind. specialize (Hm c).
  destruct (m c) as [[[x|e] c1] ev1]; unfold events_of in *; cbn [snd] in *.
  - specialize (Hk x c1). destruct (k x c1) as [[r c2] ev2].
    unfold gets, events_of in *. cbn [snd] in *. rewrite filter_app, length_app. lia.
  - lia.
Qed.

Lemma at_most_fetch (w : world) (url : string) (p : params) :
  at_most 3 (fetch_data_with_retries w url p RETRY_ATTEMPTS).
Proof.
  intros c. unfold fetch_data_with_retries.
  destruct (fetch_loop_bound w url p RETRY_ATTEMPTS (py_range 1 (RETRY_ATTEMPTS + 1)) c)
    as [Hle _].
  exact Hle.
Qed.

Lemma at_most_get_city_coordinates (w : world) (city_name : string) :
  at_most 3 (get_city_coordinates w city_name).
Proof.
  unfold get_city_coordinates.
  apply (at_most_bind 3 0); [apply at_most_fetch|intros body].
  apply at_most_free. pure_auto.
Qed.

Lemma at_most_get_current_weather (w : world) (lat lon : json) :
  at_most 3 (get_current_weather_for_coordinates w lat lon).
Proof.
  unfold get_current_weather_for_coordinates.
  apply (at_most_bind 3 0); [apply at_most_fetch|intros body].
  apply at_most_free. pure_auto.
Qed.

Lemma at_most_cities_loop (w : world) (cities : list string) :
  forall d temps, at_most (6 * List.length cities) (cities_loop w cities d temps).
Proof.
  induction cities as [|city rest IH]; intros d temps; cbn [cities_loop].
  - apply at_most_free. apply free_ret.
  - apply (at_most_weaken (0 + (3 + (3 + 6 * List.length rest)))); [cbn [List.length]; lia|].
    apply at_most_bind; [apply at_most_free; pure_auto|intros _].
    apply at_most_bind; [apply at_most_get_city_coordinates|intros coordinates].
    destruct coordinates as [[[lat lon] city_name]|].
    + apply at_most_bind; [apply at_most_get_current_weather|intros weather].
      destruct (negb (truthy weather)).
      * apply (at_most_bind 0); [apply at_most_free; pure_auto|intros _]. apply IH.
      * repeat (apply (at_most_bind 0); [apply at_most_free; pure_auto|intros ?]).
        apply IH.
    + apply (at_most_weaken (0 + 6 * List.length rest)); [lia|].
      apply at_most_bind; [apply at_most_free; pure_auto|intros _]. apply IH.
Qed.

(** X11: a run of the orchestrator issues at most six requests per input
    city (three to each endpoint), whatever the endpoints answer and however
    the run ends. *)
Theorem process_weather_for_cities_request_bound (w : world) (cities : list string)
    (output_format : string) (output_file : option string) (c : nat) :
  (gets (events_of (process_weather_for_cities w cities output_format output_file c))
   <= 6 * List.length cities)%nat.
Proof.
  revert c.
  change (at_most (6 * List.length cities)
            (process_weather_for_cities w cities output_format output_file)).
  unfold process_weather_for_cities.
  apply (at_most_weaken (6 * List.length cities + 0)); [lia|].
  apply at_most_bind; [apply at_most_cities_loop|intros acc].
  apply at_most_free.
  apply free_bind; [apply free_lift|intros stats].
  apply free_bind; [apply free_lift|intros m].
  apply free_bind.
  - destruct (output_format =? "json")%string.
    + unfold save_to_json. pure_auto.
    + apply free_raise.
  - intros _. apply free_bind; [|intros _; apply free_ret].
    apply free_print_weather_summary. reflexivity.
Qed.

(** ** The city names read from the file *)

Lemma strip_prefix_some (p l r : list ascii) : strip_prefix p l = Some r -> l = p ++ r.
Proof.
  revert l. induction p as [|a p IH]; intros l; cbn [strip_prefix].
  - intros H. now injection H as <-.
  - destruct l as [|b l]; [discriminate|].
    destruct (Ascii.eqb a b) eqn:E; [|discriminate].
    apply Ascii.eqb_eq in E. subst b. intros H. cbn [app]. f_equal. now apply IH.
Qed.

Lemma strip_prefix_app (p r : list ascii) : strip_prefix p (p ++ r) = Some r.
Proof.
  induction p as [|a p IH]; [reflexivity|]. cbn [app strip_prefix].
  now rewrite Ascii.eqb_refl.
Qed.

Lemma strip_any_some (chars : list (list ascii)) (l r : list ascii) :
  strip_any chars l = Some r -> exists p, In p chars /\ l = p ++ r.
Proof.
  induction chars as [|p ps IH]; cbn [strip_any]; [discriminate|].
  destruct (strip_prefix p l) as [r'|] eqn:E.
  - intros H. injection H as ->. exists p. split; [now left|]. now apply strip_prefix_some.
  - intros H. destruct (IH H) as [q [Hq Hl]]. exists q. split; [now right|exact Hl].
Qed.

Lemma strip_any_none (chars : list (list ascii)) (l : list ascii) :
  strip_any chars l = None -> forall p r, In p chars -> l <> p ++ r.
Proof.
  induction chars as [|q qs IH]; cbn [strip_any]; intros H p r Hin; [destruct Hin|].
  destruct (strip_prefix q l) as [r'|] eqn:E; [discriminate|].
  destruct Hin as [->|Hin]; [|now apply IH].
  intros ->. rewrite strip_prefix_app in E. discriminate.
Qed.

(** Stripping with enough fuel leaves a text that starts with none of the
    characters, and a text that starts with none of them is left as it
    is. *)
Lemma strip_front_clean (chars : list (list ascii)) :
  (forall p, In p chars -> p <> []) ->
  forall fuel l, (List.length l <= fuel)%nat ->
    strip_any chars (strip_front chars fuel l) = None.
Proof.
  intros Hne. induction fuel as [|k IH]; intros l Hlen.
  - destruct l; [|cbn in Hlen; lia]. cbn [strip_front].
    destruct (strip_any chars []) as [r|] eqn:E; [|reflexivity].
    destruct (strip_any_some _ _ _ E) as [p [Hp Hl]].
    destruct p; [now apply Hne in Hp|discriminate Hl].
  - cbn [strip_front]. destruct (strip_any chars l) as [r|] eqn:E; [|exact E].
    apply IH. destruct (strip_any_some _ _ _ E) as [p [Hp ->]].
    rewrite length_app in Hlen. destruct p; [now apply Hne in Hp|]. cbn in Hlen. lia.
Qed.

Lemma strip_front_fixed (chars : list (list ascii)) (fuel : nat) (l : list ascii) :
  strip_any chars l = None -> strip_front chars fuel l = l.
Proof. intros H. destruct fuel; [reflexivity|]. cbn [strip_front]. now rewrite H. Qed.

Lemma strip_front_suffix (chars : list (list ascii)) :
  forall fuel l, exists front, l = front ++ strip_front chars fuel l.
Proof.
  induction fuel as [|k IH]; intros l; [now exists []|]. cbn [strip_front].
  destruct (strip_any chars l) as [r|] eqn:E; [|now exists []].
  destruct (strip_any_some _ _ _ E) as [p [_ ->]]. destruct (IH r) as [front Hr].
  exists (p ++ front). rewrite <- app_assoc. now rewrite <- Hr.
Qed.

Lemma whitespace_nonempty (p : list ascii) : In p whitespace -> p <> [].
Proof.
  assert (H : forallb (fun p => negb (Nat.eqb (List.length p) 0)) whitespace = true)
    by (vm_compute; reflexivity).
  intros Hin ->. rewrite forallb_forall in H. specialize (H [] Hin). discriminate H.
Qed.

Lemma whitespace_rev_nonempty (p : list ascii) : In p (map (@rev ascii) whitespace) -> p <> [].
Proof.
  intros Hin. apply in_map_iff in Hin. destruct Hin as [q [<- Hq]].
  intros H. apply (whitespace_nonempty q Hq).
  rewrite <- (rev_involutive q), H. reflexivity.
Qed.

(** What [strip] leaves, as a list of bytes: it starts with no whitespace
    character, and read backwards it starts with none either. *)
Lemma strip_clean (s : string) :
  strip_any whitespace (list_ascii_of_string (strip s)) = None /\
  strip_any (map (@rev ascii) whitespace) (rev (list_ascii_of_string (strip s))) = None.
Proof.
  unfold strip, rstrip, lstrip. rewrite !list_ascii_of_string_of_list_ascii.
  set (a := list_ascii_of_string s).
  set (b := strip_front whitespace (List.length a) a).
  assert (Hb : strip_any whitespace b = None)
    by (apply strip_front_clean; [apply whitespace_nonempty|lia]).
  set (d := strip_front (map (@rev ascii) whitespace) (List.length b) (rev b)).
  assert (Hd : strip_any (map (@rev ascii) whitespace) d = None).
  { apply strip_front_clean; [apply whitespace_rev_nonempty|]. rewrite length_rev. lia. }
  split; [|now rewrite rev_involutive].
  destruct (strip_any whitespace (rev d)) as [r|] eqn:E; [|reflexivity].
  destruct (strip_any_some _ _ _ E) as [p [Hp Hrev]].
  destruct (strip_front_suffix (map (@rev ascii) whitespace) (List.length b) (rev b))
    as [front Hfront].
  fold d in Hfront. apply (f_equal (@rev ascii)) in Hfront.
  rewrite rev_involutive, rev_app_distr, Hrev, <- app_assoc in Hfront.
  exfalso. exact (strip_any_none _ _ Hb p _ Hp Hfront).
Qed.

Lemma strip_fixed (s : string) :
  strip_any whitespace (list_ascii_of_string s) = None ->
  strip_any (map (@rev ascii) whitespace) (rev (list_ascii_of_string s)) = None ->
  strip s = s.
Proof.
  intros Hfront Hback. unfold strip, rstrip, lstrip.
  rewrite (strip_front_fixed _ _ _ Hfront), string_of_list_ascii_of_string.
  rewrite (strip_front_fixed _ _ _ Hback), rev_involutive.
  apply string_of_list_ascii_of_string.
Qed.

Lemma strip_idempotent (s : string) : strip (strip s) = strip s.
Proof. destruct (strip_clean s) as [Hfront Hback]. now apply strip_fixed. Qed.

Lemma strip_no_space (s : string) :
  ~ starts_with_space (strip s) /\ ~ ends_with_space (strip s).
Proof.
  destruct (strip_clean s) as [Hfront Hback]. split.
  - intros [ch [tail [Hch Hs]]]. exact (strip_any_none _ _ Hfront ch tail Hch Hs).
  - intros [ch [front [Hch Hs]]].
    apply (strip_any_none _ _ Hback (rev ch) (rev front)).
    + now apply in_map.
    + now rewrite Hs, rev_app_distr.
Qed.

(** Whitespace outside ASCII is stripped too: a no-break space, the bytes
    194 and 160, before and after a name. *)
Example strip_no_break_space :
  strip (String (ascii_of_nat 194) (String (ascii_of_nat 160)
           (append " Oslo" (String (ascii_of_nat 194) (String (ascii_of_nat 160) NL)))))
    = "Oslo".
Proof. vm_compute. reflexivity. Qed.

(** X12: every city name the reader returns is non-empty and carries no
    whitespace character, ASCII or not, at either end (stripping it again
    changes nothing); the reader issues no request, and it raises exactly
    when the file cannot be read. *)
Theorem read_city_names_from_file_names (w : world) (file_path : string) (c : nat) :
  (forall names,
     result_of (read_city_names_from_file w file_path c) = Ok names ->
     Forall (fun name =>
               name <> "" /\ strip name = name /\
               ~ starts_with_space name /\ ~ ends_with_space name) names) /\
  count_of (read_city_names_from_file w file_path c) = c /\
  ((exists e, result_of (read_city_names_from_file w file_path c) = Raise e) <->
   files w file_path = NotFound \/ files w file_path = Unreadable).
Proof.
  unfold read_city_names_from_file.
  destruct (files w file_path) as [lines| |].
  - split; [|split].
    + intros names Hnames.
      assert (names = usable_names lines) as ->.
      { unfold usable_names. destruct (map strip _); cbn in Hnames;
          now injection Hnames as <-. }
      unfold usable_names. apply Forall_forall. intros name Hin.
      apply in_map_iff in Hin. destruct Hin as [line [<- Hline]].
      apply filter_In in Hline. destruct Hline as [_ Hnb].
      apply negb_true_iff, String.eqb_neq in Hnb.
      split; [exact Hnb|]. split; [apply strip_idempotent|apply strip_no_space].
    + now destruct (map strip _).
    + split.
      * intros [e He]. destruct (map strip _); discriminate He.
      * intros [H|H]; discriminate H.
  - split; [|split].
    + intros names H. discriminate H.
    + reflexivity.
    + split; [now left|]. intros _. now exists FileNotFoundError.
  - split; [|split].
    + intros names H. discriminate H.
    + reflexivity.
    + split; [now right|]. intros _. now exists OSError.
Qed.

(** ** A skipped city leaves the other cities' results alone *)

Lemma index_free_ret {A} (a : A) : index_free (ret a).
Proof. intros c c'. now split. Qed.

Lemma index_free_raise {A} (e : exn) : index_free (@raise A e).
Proof. intros c c'. now split. Qed.

Lemma index_free_lift {A} (r : res A) : index_free (lift r).
Proof. intros c c'. now split. Qed.

Lemma index_free_emit (e : event) : index_free (emit e).
Proof. intros c c'. now split. Qed.

Lemma index_free_bind {A B} (m : M A) (k : A -> M B) :
  index_free m -> (forall a, index_free (k a)) -> index_free (bind m k).
Proof.
  intros Hm Hk c c'. unfold bind. destruct (Hm c c') as [Hr He].
  destruct (m c) as [[r c1] ev1], (m c') as [[r' c1'] ev1'].
  unfold result_of, events_of in *. cbn [fst snd] in *. subst r' ev1'.
  destruct r as [a|e]; [|now split].
  destruct (Hk a c1 c1') as [Hr He].
  destruct (k a c1) as [[r2 c2] ev2], (k a c1') as [[r2' c2'] ev2'].
  unfold result_of, events_of in *. cbn [fst snd] in *. now subst.
Qed.

Ltac index_step :=
  first
    [ apply index_free_ret | apply index_free_raise | apply index_free_lift
    | apply index_free_emit
    | apply index_free_bind; [|intros ?]
    | assumption ].

Ltac index_branch :=
  match goal with
  | |- index_free (if ?b then _ else _) => destruct b
  | |- index_free (match ?x with _ => _ end) => destruct x
  end.

Ltac index_auto := repeat first [index_step | index_branch].

Section Stateless.

Variable w : world.
Hypothesis w_stateless : stateless w.

Lemma index_free_http_get (url : string) (p : params) (t : Z) :
  index_free (http_get w url p t).
Proof.
  intros c c'. unfold http_get, result_of, events_of. cbn.
  now rewrite (w_stateless c c').
Qed.

Lemma index_free_fetch_loop (url : string) (p : params) (retries : Z) (attempts : list Z) :
  index_free (fetch_loop w url p retries attempts).
Proof.
  induction attempts as [|a rest IH]; cbn [fetch_loop].
  - apply index_free_ret.
  - apply index_free_bind; [apply index_free_http_get|intros o]. index_auto.
Qed.

Lemma index_free_get_city_coordinates (city_name : string) :
  index_free (get_city_coordinates w city_name).
Proof.
  unfold get_city_coordinates.
  apply index_free_bind; [apply index_free_fetch_loop|intros body]. index_auto.
Qed.

Lemma index_free_get_current_weather (lat lon : json) :
  index_free (get_current_weather_for_coordinates w lat lon).
Proof.
  unfold get_current_weather_for_coordinates.
  apply index_free_bind; [apply index_free_fetch_loop|intros body]. index_auto.
Qed.

Lemma index_free_cities_loop (cities : list string) :
  forall d temps, index_free (cities_loop w cities d temps).
Proof.
  induction cities as [|city rest IH]; intros d temps; cbn [cities_loop].
  - apply index_free_ret.
  - apply index_free_bind; [apply index_free_emit|intros _].
    apply index_free_bind; [apply index_free_get_city_coordinates|intros coordinates].
    destruct coordinates as [[[lat lon] city_name]|].
    + apply index_free_bind; [apply index_free_get_current_weather|intros weather].
      destruct (negb (truthy weather)).
      * apply index_free_bind; [apply index_free_emit|intros _]. apply IH.
      * repeat (apply index_free_bind; [first [apply index_free_lift|apply index_free_emit]
                                       |intros ?]).
        apply IH.
    + apply index_free_bind; [apply index_free_emit|intros _]. apply IH.
Qed.

(** Meeting a skipped city first gives the result of the remaining cities. *)
Lemma cities_loop_skip_head (city : string) (rest : list string) (d : dict)
    (temps : list json) (c0 c : nat) :
  skips w city c0 ->
  result_of (cities_loop w (city :: rest) d temps c) =
    result_of (cities_loop w rest d temps c).
Proof.
  intros Hskip. cbn [cities_loop].
  unfold bind at 1. unfold print at 1, emit at 1. unfold bind at 1.
  assert (Hgeo : result_of (get_city_coordinates w city c) =
                 result_of (get_city_coordinates w city c0))
    by apply index_free_get_city_coordinates.
  destruct Hskip as [Hnone|[lat [lon [name [weather [Hsome [Hwx Hfalsy]]]]]]].
  - rewrite Hnone in Hgeo.
    destruct (get_city_coordinates w city c) as [[r c1] ev1].
    unfold result_of in Hgeo. cbn [fst] in Hgeo. subst r.
    unfold bind at 1. unfold print at 1, emit at 1.
    destruct (index_free_cities_loop rest d temps c1 c) as [Hr _].
    destruct (cities_loop w rest d temps c1) as [[r2 c2] ev2].
    unfold result_of in *. cbn [fst] in *. now rewrite <- Hr.
  - rewrite Hsome in Hgeo.
    destruct (get_city_coordinates w city c) as [[r c1] ev1].
    unfold result_of in Hgeo. cbn [fst] in Hgeo. subst r.
    unfold bind at 1.
    assert (Hw : result_of (get_current_weather_for_coordinates w lat lon c1) = Ok weather)
      by (rewrite <- Hwx; apply index_free_get_current_weather).
    destruct (get_current_weather_for_coordinates w lat lon c1) as [[r c2] ev2].
    unfold result_of in Hw. cbn [fst] in Hw. subst r. rewrite Hfalsy. cbn [negb].
    unfold bind at 1. unfold print at 1, emit at 1.
    destruct (index_free_cities_loop rest d temps c2 c) as [Hr _].
    destruct (cities_loop w rest d temps c2) as [[r3 c3] ev3].
    unfold result_of in *. cbn [fst] in *. now rewrite <- Hr.
Qed.

End Stateless.

Lemma result_bind_ext {A B} (m : M A) (k k' : A -> M B) (c : nat) :
  (forall a c1, result_of (k a c1) = result_of (k' a c1)) ->
  result_of (bind m k c) = result_of (bind m k' c).
Proof.
  intros Hk. unfold bind. destruct (m c) as [[[a|e] c1] ev1]; [|reflexivity].
  specialize (Hk a c1).
  destruct (k a c1) as [[r c2] ev2], (k' a c1) as [[r' c2'] ev2'].
  exact Hk.
Qed.

Lemma result_bind_index_free {A B} (m m' : M A) (k : A -> M B) (c c' : nat) :
  result_of (m c) = result_of (m' c') ->
  (forall a, index_free (k a)) ->
  result_of (bind m k c) = result_of (bind m' k c').
Proof.
  intros Hm Hk. unfold bind.
  destruct (m c) as [[r c1] ev1], (m' c') as [[r' c1'] ev1'].
  unfold result_of in Hm. cbn [fst] in Hm. subst r'.
  destruct r as [a|e]; [|reflexivity].
  destruct (Hk a c1 c1') as [Hr _].
  destruct (k a c1) as [[r2 c2] ev2], (k a c1') as [[r2' c2'] ev2'].
  exact Hr.
Qed.

Lemma index_free_summary_loop (items : list (json * json)) : index_free (summary_loop items).
Proof.
  induction items as [|[city weather_info] rest IH]; cbn [summary_loop]; index_auto.
Qed.

Lemma index_free_print_weather_summary (data : dict) : index_free (print_weather_summary data).
Proof.
  unfold print_weather_summary. destruct data as [|kv data]; [apply index_free_emit|].
  apply index_free_bind; [apply index_free_emit|intros _].
  apply index_free_bind; [apply index_free_summary_loop|intros _].
  apply index_free_bind; [|intros _; apply index_free_emit].
  destruct (truthy (dict_get (kv :: data) (JStr "stats"))); [|apply index_free_ret].
  unfold average_line. index_auto.
Qed.

Lemma cities_loop_skip (w : world) (city : string) (c0 : nat) (post : list string) :
  stateless w ->
  skips w city c0 ->
  forall pre d temps c,
    result_of (cities_loop w (pre ++ city :: post) d temps c) =
      result_of (cities_loop w (pre ++ post) d temps c).
Proof.
  intros Hw Hskip. induction pre as [|x pre IH]; intros d temps c.
  - now apply cities_loop_skip_head with c0.
  - cbn [app cities_loop].
    apply result_bind_ext. intros _ c1.
    apply result_bind_ext. intros coordinates c2.
    destruct coordinates as [[[lat lon] city_name]|].
    + apply result_bind_ext. intros weather c3.
      destruct (negb (truthy weather)).
      * apply result_bind_ext. intros _ c4. apply IH.
      * repeat (apply result_bind_ext; intros ? ?). apply IH.
    + apply result_bind_ext. intros _ c3. apply IH.
Qed.

(** X13: where the endpoints' answers do not depend on how many requests
    came before, a city that is skipped (its geocoding or its weather lookup
    gives absence) changes nothing for the others: the orchestrator returns
    (or raises) the same with that city in the input as without it. *)
Theorem skipped_city_changes_nothing (w : world) (city : string) (c0 : nat)
    (pre post : list string) (output_format : string) (output_file : option string)
    (c : nat) :
  stateless w ->
  skips w city c0 ->
  result_of (process_weather_for_cities w (pre ++ city :: post) output_format output_file c) =
    result_of (process_weather_for_cities w (pre ++ post) output_format output_file c).
Proof.
  intros Hw Hskip. unfold process_weather_for_cities.
  apply result_bind_index_free; [now apply cities_loop_skip with c0|].
  intros acc.
  apply index_free_bind; [apply index_free_lift|intros stats].
  apply index_free_bind; [apply index_free_lift|intros m].
  apply index_free_bind.
  - destruct (output_format =? "json")%string.
    + unfold save_to_json, print. index_auto.
    + apply index_free_raise.
  - intros _. apply index_free_bind; [|intros _; apply index_free_ret].
    apply index_free_print_weather_summary.
Qed.

Lemma skipped_city_changes_nothing_witness :
  result_of (process_weather_for_cities steady_world (["Paris"] ++ "Nowhereville" :: ["Tokyo"])
               "json" None 0%nat) =
    result_of (process_weather_for_cities steady_world (["Paris"] ++ ["Tokyo"])
                 "json" None 0%nat).
Proof.
  apply (skipped_city_changes_nothing steady_world "Nowhereville" 0%nat
           ["Paris"] ["Tokyo"] "json" None 0%nat).
  - intros k k' url p. reflexivity.
  - left. reflexivity.
Defined.

(** ** The one file a run may write *)


